(** * Sales analysis dashboard: the data pipeline of [streamlit_app.py]

    A shallow embedding of the computational core of the dashboard:
    the amount cleaner [clean_price], the category key extractors
    [extract_paren] and [extract_prefix], the column check of
    [load_and_preprocess_from_path], the grouped sums, the two-period
    comparison tables and the report figures.

    Conventions.
    - A Python [str] is a [string]; a character is a byte.  The character
      classes of the source ([\d], whitespace) are modelled on ASCII; every
      other byte (for instance the bytes of a Hangul syllable) is a plain
      character that is neither a digit nor a blank.
    - A Python number is a [pynum]: an [int], or a [float] whose value is an
      integer, an infinity or NaN.  These are the only floats [clean_price]
      can return.  Conversion of a digit string to [float] rounds to the
      nearest binary64 value, ties to even ([float_of_Z]).
    - A raised exception is explicit: [outcome] is the error monad, and
      [try: ... except:] is [try_except].
    - Column sums work on integers: the cleaned amounts are integer valued,
      and binary64 is exact on integers of magnitude up to 2^53.  A value
      missing after index alignment (pandas NaN) is [None].
    - The column names and the sentinels keep the source's Korean text; the
      Rocq names are English renderings. *)

From Stdlib Require Import ZArith QArith Lia List Ascii String Bool.
From Stdlib Require Import Sorting.Sorted Sorting.Permutation.
From stdpp Require Import base gmap strings list.

Local Open Scope Z_scope.

(** ** Python values *)

Inductive pyfloat : Type :=
| FNum (z : Z)
| FInf
| FNegInf
| FNaN.

Inductive pynum : Type :=
| PyInt (z : Z)
| PyFloat (f : pyfloat).

(** A table cell: text, or a number (a missing cell is the float NaN). *)
Inductive pyobj : Type :=
| Str (s : string)
| Num (n : pynum).

Inductive pyexn : Type :=
| ValueError
| KeyError.

Inductive outcome (A : Type) : Type :=
| Return (a : A)
| Raised (e : pyexn).

Arguments Return {A} a.
Arguments Raised {A} e.

#[global] Instance outcome_ret : MRet outcome := fun A a => Return a.

#[global] Instance outcome_bind : MBind outcome := fun A B k c =>
  match c with
  | Return a => k a
  | Raised e => Raised e
  end.

(** [try: c  except: h] with a bare [except]. *)
Definition try_except {A : Type} (c : outcome A) (h : outcome A) : outcome A :=
  match c with
  | Return a => Return a
  | Raised _ => h
  end.

Fixpoint mapM {A B : Type} (f : A -> outcome B) (l : list A) : outcome (list B) :=
  match l with
  | [] => Return []
  | a :: l' => b ← f a; bs ← mapM f l'; Return (b :: bs)
  end.

(** Python's [==] on numbers: an int and a float are compared by value, and
    NaN equals nothing. *)
Definition float_eqb (a b : pyfloat) : bool :=
  match a, b with
  | FNum x, FNum y => x =? y
  | FInf, FInf => true
  | FNegInf, FNegInf => true
  | _, _ => false
  end.

Definition as_float (n : pynum) : pyfloat :=
  match n with
  | PyInt z => FNum z
  | PyFloat f => f
  end.

Definition num_eqb (a b : pynum) : bool := float_eqb (as_float a) (as_float b).

(** [0 <= n] on numbers; false for NaN. *)
Definition num_nonneg (n : pynum) : bool :=
  match as_float n with
  | FNum z => 0 <=? z
  | FInf => true
  | FNegInf => false
  | FNaN => false
  end.

(** ** Characters and strings *)

Definition is_digit (c : ascii) : bool :=
  let n := N_of_ascii c in ((48 <=? n) && (n <=? 57))%N.

Definition is_comma (c : ascii) : bool := Ascii.eqb c ",".

(** The class [[\d,]] of the amount pattern. *)
Definition in_price_class (c : ascii) : bool := is_digit c || is_comma c.

(** Whitespace removed by [str.strip()]. *)
Definition is_space (c : ascii) : bool :=
  let n := N_of_ascii c in
  (((9 <=? n) && (n <=? 13)) || ((28 <=? n) && (n <=? 32)))%N.

(** Whitespace skipped by [float()] around its argument. *)
Definition is_float_space (c : ascii) : bool :=
  let n := N_of_ascii c in
  (((9 <=? n) && (n <=? 13)) || (n =? 32))%N.

Definition is_empty (s : string) : bool :=
  match s with
  | EmptyString => true
  | String _ _ => false
  end.

Fixpoint lstrip_with (sp : ascii -> bool) (s : string) : string :=
  match s with
  | EmptyString => EmptyString
  | String c s' => if sp c then lstrip_with sp s' else s
  end.

Fixpoint rstrip_with (sp : ascii -> bool) (s : string) : string :=
  match s with
  | EmptyString => EmptyString
  | String c s' =>
      let r := rstrip_with sp s' in
      if sp c && is_empty r then EmptyString else String c r
  end.

Definition strip_with (sp : ascii -> bool) (s : string) : string :=
  rstrip_with sp (lstrip_with sp s).

(** [s.strip()] *)
Definition strip (s : string) : string := strip_with is_space s.

(** [s.replace(',', '')] *)
Fixpoint remove_commas (s : string) : string :=
  match s with
  | EmptyString => EmptyString
  | String c s' => if is_comma c then remove_commas s' else String c (remove_commas s')
  end.

(** The longest prefix whose characters satisfy [p], and what follows it. *)
Fixpoint span (p : ascii -> bool) (s : string) : string * string :=
  match s with
  | EmptyString => (EmptyString, EmptyString)
  | String c s' =>
      if p c then let '(a, b) := span p s' in (String c a, b)
      else (EmptyString, s)
  end.

Fixpoint forallb_str (p : ascii -> bool) (s : string) : bool :=
  match s with
  | EmptyString => true
  | String c s' => p c && forallb_str p s'
  end.

Fixpoint existsb_str (p : ascii -> bool) (s : string) : bool :=
  match s with
  | EmptyString => false
  | String c s' => p c || existsb_str p s'
  end.

Definition to_lower (c : ascii) : ascii :=
  let n := N_of_ascii c in
  if ((65 <=? n) && (n <=? 90))%N then ascii_of_N (n + 32) else c.

Fixpoint lower (s : string) : string :=
  match s with
  | EmptyString => EmptyString
  | String c s' => String (to_lower c) (lower s')
  end.

(** ** Decimal text of integers and floats *)

Definition digit_value (c : ascii) : Z := Z.of_N (N_of_ascii c) - 48.

Fixpoint digits_value_acc (acc : Z) (s : string) : Z :=
  match s with
  | EmptyString => acc
  | String c s' => digits_value_acc (10 * acc + digit_value c) s'
  end.

(** The integer written by a string of decimal digits. *)
Definition digits_value (s : string) : Z := digits_value_acc 0 s.

Definition digit_char (d : Z) : ascii := ascii_of_N (Z.to_N (48 + d)).

Fixpoint dec_digits (fuel : nat) (z : Z) (acc : string) : string :=
  match fuel with
  | O => acc
  | S fuel' =>
      let acc' := String (digit_char (z mod 10)) acc in
      if z <? 10 then acc' else dec_digits fuel' (z / 10) acc'
  end.

(** Decimal text of a non-negative integer, without leading zeros. *)
Definition dec (z : Z) : string :=
  dec_digits (S (Z.to_nat (Z.log2 z))) z EmptyString.

(** [m / 2^e] rounded to the nearest integer, ties to even. *)
Definition round_half_even (m e : Z) : Z :=
  let q := Z.shiftr m e in
  let r := m - Z.shiftl q e in
  let half := Z.shiftl 1 (e - 1) in
  if (half <? r) || ((r =? half) && Z.odd q) then q + 1 else q.

(** The binary64 value nearest to the integer [m >= 0]: 53 significant bits,
    overflow to infinity from [2^1024]. *)
Definition float_of_Z (m : Z) : pyfloat :=
  if m <? 2 ^ 53 then FNum m
  else
    let e := Z.log2 m - 52 in
    let v := Z.shiftl (round_half_even m e) e in
    if v <? 2 ^ 1024 then FNum v else FInf.

Definition float_neg (f : pyfloat) : pyfloat :=
  match f with
  | FNum z => FNum (- z)
  | FInf => FNegInf
  | FNegInf => FInf
  | FNaN => FNaN
  end.

(** *** [repr] of a float

    Below [10^16] an integer-valued float prints as its digits followed by
    [.0]; from [10^16] on, [repr] switches to exponent notation with the
    shortest digit string that reads back as the same float. *)

Definition rounds_to (z c : Z) : bool :=
  match float_of_Z c with
  | FNum v => v =? z
  | _ => false
  end.

(** The decimal with [n] significant digits (of [nd]) that reads back as [z]. *)
Definition shortest_candidate (z nd n : Z) : option Z :=
  let p := 10 ^ (nd - n) in
  let lo := (z / p) * p in
  let hi := lo + p in
  match rounds_to z lo, rounds_to z hi with
  | true, true => Some (if z - lo <=? hi - z then lo else hi)
  | true, false => Some lo
  | false, true => Some hi
  | false, false => None
  end.

Fixpoint shortest_from (z nd : Z) (ns : list Z) : Z :=
  match ns with
  | [] => z
  | n :: ns' =>
      match shortest_candidate z nd n with
      | Some c => c
      | None => shortest_from z nd ns'
      end
  end.

Definition shortest_decimal (z : Z) : Z :=
  shortest_from z (Z.of_nat (String.length (dec z))) (map Z.of_nat (seq 1 17)).

Definition pad2 (s : string) : string :=
  if (String.length s <? 2)%nat then "0" +:+ s else s.

(** [d.ddde+XX] for the integer [c]. *)
Definition repr_exp (c : Z) : string :=
  let ds := dec c in
  let ex := dec (Z.of_nat (String.length ds) - 1) in
  match rstrip_with (Ascii.eqb "0") ds with
  | EmptyString => "0e+00"
  | String d rest =>
      String d (if is_empty rest then "" else "." +:+ rest) +:+ "e+" +:+ pad2 ex
  end.

Definition float_repr_abs (z : Z) : string :=
  if z <? 10 ^ 16 then dec z +:+ ".0" else repr_exp (shortest_decimal z).

Definition float_repr (f : pyfloat) : string :=
  match f with
  | FNum z => if z <? 0 then "-" +:+ float_repr_abs (- z) else float_repr_abs z
  | FInf => "inf"
  | FNegInf => "-inf"
  | FNaN => "nan"
  end.

(** [str(x)] *)
Definition py_str (x : pyobj) : string :=
  match x with
  | Str s => s
  | Num (PyInt z) => if z <? 0 then "-" +:+ dec (- z) else dec z
  | Num (PyFloat f) => float_repr f
  end.

(** *** [float(s)]

    [float] is needed on two kinds of argument only: a string of digits, and
    a string without any digit (see [clean_price_float_arg]).  On a string
    without digits the only accepted spellings are the infinities and NaN.
    Literals with a fraction, an exponent or underscores need a digit next
    to another character and are left out. *)

Definition float_word (s : string) : option pyfloat :=
  let w := lower s in
  if String.eqb w "inf" || String.eqb w "infinity" then Some FInf
  else if String.eqb w "nan" then Some FNaN
  else None.

Definition float_unsigned (s : string) : outcome pyfloat :=
  if negb (is_empty s) && forallb_str is_digit s then
    Return (float_of_Z (digits_value s))
  else
    match float_word s with
    | Some f => Return f
    | None => Raised ValueError
    end.

Definition py_float (s : string) : outcome pyfloat :=
  match strip_with is_float_space s with
  | EmptyString => float_unsigned EmptyString
  | String c t =>
      if Ascii.eqb c "-" then f ← float_unsigned t; Return (float_neg f)
      else if Ascii.eqb c "+" then float_unsigned t
      else float_unsigned (String c t)
  end.

(** ** Field normalizer: [clean_price] *)

(** The pattern [\(?([\d,]+)\)?] tried at the start of [s]; the result is
    group 1.  The optional parenthesis is greedy: it is taken first, and
    given back when the class does not follow it. *)
Definition price_run (s : string) : option string :=
  let '(run, _) := span in_price_class s in
  if is_empty run then None else Some run.

Definition match_price_here (s : string) : option string :=
  match s with
  | EmptyString => price_run s
  | String c s' =>
      if Ascii.eqb c "(" then
        match price_run s' with
        | Some g => Some g
        | None => price_run s
        end
      else price_run s
  end.

(** [re.search]: the leftmost position where the pattern matches. *)
Fixpoint search_price (s : string) : option string :=
  match match_price_here s with
  | Some g => Some g
  | None =>
      match s with
      | EmptyString => None
      | String _ s' => search_price s'
      end
  end.

(** The string handed to [float]: group 1 of the match when there is one,
    the text of [x] otherwise, without commas. *)
Definition price_text (x : pyobj) : string :=
  let x1 :=
    match search_price (py_str x) with
    | Some g => g
    | None => py_str x
    end in
  remove_commas x1.

Definition clean_price (x : pyobj) : outcome pynum :=
  try_except (f ← py_float (price_text x); Return (PyFloat f))
             (Return (PyInt 0)).

(** [o] returns a number equal, for Python's [==], to [v]. *)
Definition returns_eq (o : outcome pynum) (v : pynum) : bool :=
  match o with
  | Return r => num_eqb r v
  | Raised _ => false
  end.

(** ** Category key extractor *)

(** The sentinel key of a label without a group or a prefix. *)
Definition other : string := "기타".

Definition not_char (a c : ascii) : bool := negb (Ascii.eqb c a).

(** The pattern [\(([^)]+)\)] tried at the start of [s].  The span stops at
    the first [)] or at the end of [s]; in the first case the closing
    parenthesis of the pattern matches. *)
Definition match_paren_here (s : string) : option string :=
  match s with
  | EmptyString => None
  | String c s' =>
      if Ascii.eqb c "(" then
        let '(g, rest) := span (not_char ")") s' in
        if is_empty g || is_empty rest then None else Some g
      else None
  end.

Fixpoint search_paren (s : string) : option string :=
  match match_paren_here s with
  | Some g => Some g
  | None =>
      match s with
      | EmptyString => None
      | String _ s' => search_paren s'
      end
  end.

Definition extract_paren (x : pyobj) : string :=
  match search_paren (py_str x) with
  | Some g => strip g
  | None => other
  end.

(** [pd.isna(x)] on a cell *)
Definition isna (x : pyobj) : bool :=
  match x with
  | Num (PyFloat FNaN) => true
  | _ => false
  end.

(** [re.match(r"([^(]+)", s)]: group 1 *)
Definition match_prefix (s : string) : option string :=
  let '(g, _) := span (not_char "(") s in
  if is_empty g then None else Some g.

Definition extract_prefix (x : pyobj) : string :=
  if isna x || is_empty (strip (py_str x)) then other
  else
    match match_prefix (py_str x) with
    | Some g => strip g
    | None => other
    end.

(** ** Record loader: the column check of [load_and_preprocess_from_path] *)

(** A decoded table: its number of rows and its columns by name. *)
Record DataFrame : Type := mkDataFrame {
  nrows : nat;
  columns : gmap string (list pyobj)
}.

Definition col_category : string := "분류명".
Definition col_product : string := "상품명".
Definition col_orders : string := "주문수".
Definition col_amount : string := "실판매금액".
Definition col_branch : string := "지점명".
Definition col_month : string := "월".
Definition col_group : string := "분류그룹".

(** The sentinel branch name. *)
Definition unassigned_branch : string := "미지정지점".

Definition required_cols : list string :=
  [col_category; col_product; col_orders; col_amount; col_branch; col_month].

(** [col in df.columns] *)
Definition has_column (df : DataFrame) (col : string) : bool :=
  match columns df !! col with
  | Some _ => true
  | None => false
  end.

(** [df[col] = values] *)
Definition set_column (df : DataFrame) (col : string) (values : list pyobj) : DataFrame :=
  mkDataFrame (nrows df) (<[col := values]> (columns df)).

(** [df[col] = v] for a scalar [v]: one copy per row. *)
Definition set_scalar (df : DataFrame) (col : string) (v : pyobj) : DataFrame :=
  set_column df col (replicate (nrows df) v).

(** [df[col]] *)
Definition get_column (df : DataFrame) (col : string) : outcome (list pyobj) :=
  match columns df !! col with
  | Some c => Return c
  | None => Raised KeyError
  end.

(** The loop over [required_cols]; [None] is the early [return None]. *)
Fixpoint check_columns (label : string) (cols : list string) (df : DataFrame)
  : option DataFrame :=
  match cols with
  | [] => Some df
  | col :: rest =>
      if has_column df col then check_columns label rest df
      else if String.eqb col col_branch then
        check_columns label rest (set_scalar df col (Str unassigned_branch))
      else if String.eqb col col_month then
        check_columns label rest (set_scalar df col (Str label))
      else None
  end.

(** The body of the [try] block once the table is decoded. *)
Definition preprocess (df : DataFrame) (label : string) : outcome (option DataFrame) :=
  match check_columns label required_cols df with
  | None => Return None
  | Some df1 =>
      amounts ← get_column df1 col_amount;
      cleaned ← mapM clean_price amounts;
      let df2 := set_column df1 col_amount (map Num cleaned) in
      names ← get_column df2 col_category;
      let df3 := set_column df2 col_group (map (fun x => Str (extract_paren x)) names) in
      Return (Some df3)
  end.

(** [decoded] is the table read from the file: [None] when the path is
    missing, the extension is unsupported or the reader raises. *)
Definition load_and_preprocess_from_path (decoded : option DataFrame) (label : string)
  : option DataFrame :=
  match decoded with
  | None => None
  | Some df =>
      match preprocess df label with
      | Return r => r
      | Raised _ => None
      end
  end.

(** ** Aggregator *)

(** A loaded row, as the comparison reads it. *)
Record Sale : Type := mkSale {
  category_name : string;
  order_count : Z;
  sale_amount : Z;
  category_group : string
}.


(** A pandas Series indexed by key: the labels with their values, in index
    order. *)
Definition keys {V : Type} (s : list (string * V)) : list string := map fst s.

Fixpoint lookup_key {V : Type} (k : string) (s : list (string * V)) : option V :=
  match s with
  | [] => None
  | (k', v) :: s' => if String.eqb k k' then Some v else lookup_key k s'
  end.

Fixpoint add_to_group (k : string) (v : Z) (s : list (string * Z)) : list (string * Z) :=
  match s with
  | [] => [(k, v)]
  | (k', v') :: s' =>
      match String.compare k k' with
      | Eq => (k', v' + v) :: s'
      | Lt => (k, v) :: s
      | Gt => (k', v') :: add_to_group k v s'
      end
  end.

(** [df.groupby(key)[val].sum()]: one entry per key, in key order. *)
Definition groupby_sum (key : Sale -> string) (val : Sale -> Z) (df : list Sale)
  : list (string * Z) :=
  fold_left (fun acc r => add_to_group (key r) (val r) acc) df [].


(** [df[val].sum()] *)
Definition column_sum (val : Sale -> Z) (df : list Sale) : Z :=
  fold_left (fun acc r => acc + val r) df 0.

(** ** Period comparator *)

Fixpoint insert_key (k : string) (ks : list string) : list string :=
  match ks with
  | [] => [k]
  | k' :: ks' =>
      match String.compare k k' with
      | Eq => ks
      | Lt => k :: ks
      | Gt => k' :: insert_key k ks'
      end
  end.

(** The sorted union of two indexes. *)
Definition index_union (a b : list string) : list string :=
  fold_right insert_key [] (a ++ b).

(** [a + b] on two Series: the indexes are aligned on their union, and a
    label missing on one side gives NaN. *)
Definition series_add (a b : list (string * Z)) : list (string * option Z) :=
  map (fun k =>
         (k, match lookup_key k a, lookup_key k b with
             | Some x, Some y => Some (x + y)
             | _, _ => None
             end))
      (index_union (keys a) (keys b)).

Fixpoint insert_desc {K : Type} (x : K * Z) (l : list (K * Z)) : list (K * Z) :=
  match l with
  | [] => [x]
  | y :: l' => if snd x <? snd y then y :: insert_desc x l' else x :: l
  end.

(** Descending sort on the value; equal values keep their order.  (The
    order pandas gives to equal values depends on the sorting algorithm; no
    statement below depends on it.) *)
Definition sort_desc {K : Type} (l : list (K * Z)) : list (K * Z) :=
  fold_right insert_desc [] l.

Definition known {K : Type} (s : list (K * option Z)) : list (K * Z) :=
  omap (fun kv => match snd kv with Some v => Some (fst kv, v) | None => None end) s.

Definition unknown {K : Type} (s : list (K * option Z)) : list (K * option Z) :=
  List.filter (fun kv => match snd kv with Some _ => false | None => true end) s.

(** [series.sort_values(ascending=False)]: NaN entries go last. *)
Definition sort_values_desc (s : list (string * option Z)) : list (string * option Z) :=
  map (fun kv => (fst kv, Some (snd kv))) (sort_desc (known s)) ++ unknown s.

(** [group_sum.sort_values(ascending=False).head(10).index.tolist()] *)
Definition top10_groups (key : Sale -> string) (val : Sale -> Z) (df_prev df_curr : list Sale)
  : list string :=
  let group_sum := series_add (groupby_sum key val df_prev) (groupby_sum key val df_curr) in
  keys (take 10 (sort_values_desc group_sum)).

(** [df[df[key].isin(top)]] *)
Definition isin (top : list string) (k : string) : bool := existsb (String.eqb k) top.

Definition restrict (key : Sale -> string) (top : list string) (df : list Sale) : list Sale :=
  List.filter (fun r => isin top (key r)) df.

(** A row of the merged table: the key, the current-period column
    ([_당월]) and the previous-period column ([_전달]). *)
Record CompareRow : Type := mkCompareRow {
  row_key : string;
  current_value : Z;
  previous_value : Z
}.

(** [pd.merge(curr, prev, on=key, how="outer").fillna(0)]: one row per key of
    either side, in key order. *)
Definition merge_outer_fillna (curr prev : list (string * Z)) : list CompareRow :=
  map (fun k => mkCompareRow k (default 0 (lookup_key k curr)) (default 0 (lookup_key k prev)))
      (index_union (keys curr) (keys prev)).

(** The comparison table of the two periods ([compare], [order_compare]). *)
Definition compare (key : Sale -> string) (val : Sale -> Z) (df_prev df_curr : list Sale)
  : list CompareRow :=
  let top := top10_groups key val df_prev df_curr in
  let prev_group := groupby_sum key val (restrict key top df_prev) in
  let curr_group := groupby_sum key val (restrict key top df_curr) in
  merge_outer_fillna curr_group prev_group.

(** [.replace(0, 1)] on the divisor column *)
Definition replace_zero (z : Z) : Z := if z =? 0 then 1 else z.

(** A row of the report table: the merged row with [증감액] and [증감률]. *)
Record ReportRow : Type := mkReportRow {
  merged : CompareRow;
  delta : Z;
  delta_rate : Q
}.

Definition with_delta (r : CompareRow) : ReportRow :=
  let d := current_value r - previous_value r in
  mkReportRow r d ((inject_Z d / inject_Z (replace_zero (previous_value r))) * 100)%Q.

Definition compare_report (key : Sale -> string) (val : Sale -> Z) (df_prev df_curr : list Sale)
  : list ReportRow :=
  map with_delta (compare key val df_prev df_curr).

(** ** Report metrics *)

(** The quotient of two column totals.  With a zero divisor there is no
    number to report: numpy scalars give NaN or an infinity, Python numbers
    raise [ZeroDivisionError]. *)
Inductive quotient : Type :=
| Quot (q : Q)
| Undefined.

Definition truediv (a b : Z) : quotient :=
  if b =? 0 then Undefined else Quot (inject_Z a / inject_Z b)%Q.

Definition times100 (x : quotient) : quotient :=
  match x with
  | Quot q => Quot (q * 100)%Q
  | Undefined => Undefined
  end.

(** [total_sales / total_orders if total_orders > 0 else 0] *)
Definition avg_order_value (df_curr : list Sale) : quotient :=
  let total_sales := column_sum sale_amount df_curr in
  let total_orders := column_sum order_count df_curr in
  if 0 <? total_orders then truediv total_sales total_orders else Quot 0.

(** [groupby(...).agg(['sum', 'count'])], sorted by the sum, first five.
    The entry of a key is its sum paired with its count. *)
Definition groupby_count (key : Sale -> string) (df : list Sale) : list (string * Z) :=
  groupby_sum key (fun _ => 1) df.

Definition top_categories (df_curr : list Sale) : list (string * Z * Z) :=
  let sums := groupby_sum category_group sale_amount df_curr in
  let counts := groupby_count category_group df_curr in
  map (fun kv => (fst kv, snd kv, default 0 (lookup_key (fst kv) counts)))
      (take 5 (sort_desc sums)).

(** [(total_top5_sales / total_sales) * 100] *)
Definition sales_ratio (df_curr : list Sale) : quotient :=
  let total_sales := column_sum sale_amount df_curr in
  let total_top5_sales := fold_left (fun acc row => acc + snd (fst row)) (top_categories df_curr) 0 in
  times100 (truediv total_top5_sales total_sales).

(** ** The comparison as the specification words it *)

(** Follows the specification's words: the combined magnitude of a key is
    its previous sum plus its current sum, a side without the key counting
    for 0. *)
Definition combined_magnitude_spec (a b : list (string * Z)) : list (string * Z) :=
  map (fun k => (k, default 0 (lookup_key k a) + default 0 (lookup_key k b)))
      (index_union (keys a) (keys b)).

(** Follows the specification's words: the ten keys of largest combined
    magnitude. *)
Definition top10_spec (key : Sale -> string) (val : Sale -> Z) (df_prev df_curr : list Sale)
  : list string :=
  keys (take 10 (sort_desc
    (combined_magnitude_spec (groupby_sum key val df_prev) (groupby_sum key val df_curr)))).

(** A row as the loader leaves it: the group is derived from the label. *)
Definition loaded_row (name : string) (orders amount : Z) : Sale :=
  mkSale name orders amount (extract_paren (Str name)).

(** ** Sample periods *)

(** Two small periods: group A in both, B in the previous one only, C in the
    current one only. *)
Definition sample_prev : list Sale :=
  [loaded_row "(A)" 1 100; loaded_row "(B)" 1 50].

Definition sample_curr : list Sale :=
  [loaded_row "(A)" 1 150; loaded_row "(C)" 1 20].

(** Ten groups sold in both periods, and a group Z sold in the current
    period only, with the largest amount of all. *)
Definition busy_prev : list Sale :=
  [loaded_row "Tea (g0)" 1 10; loaded_row "Tea (g1)" 1 20; loaded_row "Tea (g2)" 1 30;
   loaded_row "Tea (g3)" 1 40; loaded_row "Tea (g4)" 1 50; loaded_row "Tea (g5)" 1 60;
   loaded_row "Tea (g6)" 1 70; loaded_row "Tea (g7)" 1 80; loaded_row "Tea (g8)" 1 90;
   loaded_row "Tea (g9)" 1 100].

Definition busy_curr : list Sale :=
  [loaded_row "Tea (g0)" 1 15; loaded_row "Tea (g1)" 1 25; loaded_row "Tea (g2)" 1 35;
   loaded_row "Tea (g3)" 1 45; loaded_row "Tea (g4)" 1 55; loaded_row "Tea (g5)" 1 65;
   loaded_row "Tea (g6)" 1 75; loaded_row "Tea (g7)" 1 85; loaded_row "Tea (g8)" 1 95;
   loaded_row "Tea (g9)" 1 105; loaded_row "Gift (Z)" 1 1000].

(** The columns without a default, and whether one of them is absent. *)
Definition non_defaultable : list string :=
  [col_category; col_product; col_orders; col_amount].

Definition missing_required (df : DataFrame) : bool :=
  existsb (fun c => negb (has_column df c)) non_defaultable.

(** The branch column after the defaulting step. *)
Definition with_branch (df : DataFrame) : DataFrame :=
  if has_column df col_branch then df
  else set_scalar df col_branch (Str unassigned_branch).

(** The month column after the defaulting step. *)
Definition with_month (label : string) (df : DataFrame) : DataFrame :=
  if has_column df col_month then df
  else set_scalar df col_month (Str label).

(** A two-row table without the branch and the month columns. *)
Definition sample_table : DataFrame :=
  mkDataFrame 2
    (list_to_map
       [(col_category, [Str "Tea (g0)"; Str "Gift"]);
        (col_product, [Str "Green tea"; Str "Box"]);
        (col_orders, [Num (PyInt 3); Num (PyInt 1)]);
        (col_amount, [Str "(12,345)"; Str "N/A"])]).

(** ** Definitions for the further properties *)

(** A row's measure summed over the rows of one key. *)
Definition rows_with (key : Sale -> string) (k : string) (df : list Sale) : list Sale :=
  List.filter (fun r => String.eqb (key r) k) df.

(** [s1 < s2] in the order of the index. *)
Definition key_lt (s1 s2 : string) : Prop := String.compare s1 s2 = Lt.











(** The merged row with its two periods exchanged. *)
Definition swap_row (r : CompareRow) : CompareRow :=
  mkCompareRow (row_key r) (previous_value r) (current_value r).

(** The number [clean_price] returns (it never raises). *)
Definition clean_value (x : pyobj) : pynum :=
  match clean_price x with
  | Return v => v
  | Raised _ => PyInt 0
  end.


(** [s] is empty or starts outside the class [[\d,]]. *)
Definition ends_run (s : string) : bool :=
  match s with
  | EmptyString => true
  | String c _ => negb (in_price_class c)
  end.

Definition is_paren_open (c : ascii) : bool := Ascii.eqb c "(".

Definition is_paren_close (c : ascii) : bool := Ascii.eqb c ")".

(** Every column has one value per row. *)
Definition well_formed (df : DataFrame) : Prop :=
  forall (c : string) (vs : list pyobj), columns df !! c = Some vs -> length vs = nrows df.

(** The table a successful load returns, given the amount and the label
    columns of the decoded table. *)
Definition loaded_table (df : DataFrame) (label : string) (amounts names : list pyobj)
  : DataFrame :=
  set_column
    (set_column (with_month label (with_branch df)) col_amount
                (map (fun x => Num (clean_value x)) amounts))
    col_group (map (fun x => Str (extract_paren x)) names).

(** A result whose text is not in exponent notation and that is a number:
    below [10^16], or an infinity. *)
Definition prints_plainly (v : pynum) : bool :=
  match as_float v with
  | FNum z => z <? 10 ^ 16
  | FInf => true
  | FNegInf => true
  | FNaN => false
  end.



(** * Properties *)

(** ** Strings *)

Section StringFacts.

Variable p : ascii -> bool.

Lemma span_all (s : string) :
  forallb_str p s = true -> span p s = (s, EmptyString).
Proof.
  induction s as [|c s IH]; simpl; [reflexivity|].
  intros [Hc Hs]%andb_prop. rewrite Hc, (IH Hs). reflexivity.
Qed.

Lemma span_app (run rest : string) (c : ascii) :
  forallb_str p run = true -> p c = false ->
  span p (run +:+ String c rest) = (run, String c rest).
Proof.
  intros Hrun Hc. induction run as [|d run IH]; simpl in *.
  - rewrite Hc. reflexivity.
  - apply andb_prop in Hrun as [Hd Hrun]. rewrite Hd, (IH Hrun). reflexivity.
Qed.

Lemma span_fst_forallb (s : string) : forallb_str p (fst (span p s)) = true.
Proof.
  induction s as [|c s IH]; simpl; [reflexivity|].
  destruct (p c) eqn:Hc; [|reflexivity].
  destruct (span p s) as [a b]. simpl in *. rewrite Hc, IH. reflexivity.
Qed.

Lemma span_head_false (c : ascii) (s : string) :
  p c = false -> span p (String c s) = (EmptyString, String c s).
Proof. intros Hc. simpl. rewrite Hc. reflexivity. Qed.

Lemma existsb_app (s t : string) :
  existsb_str p (s +:+ t) = existsb_str p s || existsb_str p t.
Proof.
  induction s as [|c s IH]; simpl; [reflexivity|].
  rewrite IH. apply orb_assoc.
Qed.

Lemma forallb_nonempty_exists (s : string) :
  is_empty s = false -> forallb_str p s = true -> existsb_str p s = true.
Proof.
  destruct s as [|c s]; simpl; [discriminate|].
  intros _ [Hc _]%andb_prop. rewrite Hc. reflexivity.
Qed.

Lemma existsb_lstrip (sp : ascii -> bool) (s : string) :
  existsb_str p s = false -> existsb_str p (lstrip_with sp s) = false.
Proof.
  induction s as [|c s IH]; simpl; [reflexivity|].
  intros [Hc Hs]%orb_false_elim.
  destruct (sp c); [auto|]. simpl. rewrite Hc, Hs. reflexivity.
Qed.

Lemma existsb_rstrip (sp : ascii -> bool) (s : string) :
  existsb_str p s = false -> existsb_str p (rstrip_with sp s) = false.
Proof.
  induction s as [|c s IH]; simpl; [reflexivity|].
  intros [Hc Hs]%orb_false_elim.
  destruct (sp c && is_empty (rstrip_with sp s)); simpl; [reflexivity|].
  rewrite Hc, (IH Hs). reflexivity.
Qed.

End StringFacts.

Lemma lstrip_head (sp : ascii -> bool) (c : ascii) (s : string) :
  sp c = false -> lstrip_with sp (String c s) = String c s.
Proof. intros H. simpl. rewrite H. reflexivity. Qed.

Lemma rstrip_none (sp : ascii -> bool) (s : string) :
  existsb_str sp s = false -> rstrip_with sp s = s.
Proof.
  induction s as [|c s IH]; simpl; [reflexivity|].
  intros [Hc Hs]%orb_false_elim. rewrite Hc, (IH Hs). reflexivity.
Qed.

Lemma is_empty_true (s : string) : is_empty s = true -> s = EmptyString.
Proof. destruct s; [reflexivity | discriminate]. Qed.

(** ** The amount pattern *)

Lemma price_class_not_paren (c : ascii) :
  in_price_class c = true -> Ascii.eqb c "(" = false.
Proof.
  destruct (Ascii.eqb_spec c "(") as [->|]; [discriminate | reflexivity].
Qed.

Lemma price_run_head (c : ascii) (s : string) :
  in_price_class c = false -> price_run (String c s) = None.
Proof. intros H. unfold price_run. rewrite span_head_false by exact H. reflexivity. Qed.

Lemma price_run_Some (s g : string) :
  price_run s = Some g ->
  is_empty g = false /\ forallb_str in_price_class g = true /\
  match_price_here s = Some g.
Proof.
  unfold price_run. intros H.
  pose proof (span_fst_forallb in_price_class s) as Hall.
  destruct (span in_price_class s) as [run rest] eqn:Hspan. simpl in Hall.
  destruct (is_empty run) eqn:He; [discriminate|]. injection H as <-.
  repeat split; [exact He | exact Hall |].
  destruct s as [|c s]; simpl in *.
  - unfold price_run. simpl. injection Hspan as <- <-. discriminate.
  - destruct (in_price_class c) eqn:Hc.
    + rewrite (price_class_not_paren c Hc). unfold price_run. simpl.
      rewrite Hc. destruct (span in_price_class s) as [a b].
      injection Hspan as <- <-. reflexivity.
    + injection Hspan as <- <-. discriminate.
Qed.

Lemma match_price_here_Some (s g : string) :
  match_price_here s = Some g ->
  is_empty g = false /\ forallb_str in_price_class g = true.
Proof.
  destruct s as [|c s]; simpl.
  - intros H. apply price_run_Some in H. tauto.
  - destruct (Ascii.eqb c "(").
    + destruct (price_run s) as [g'|] eqn:Hs.
      * intros [= <-]. apply price_run_Some in Hs. tauto.
      * intros H. apply price_run_Some in H. tauto.
    + intros H. apply price_run_Some in H. tauto.
Qed.

Lemma match_price_here_None (c : ascii) (s : string) :
  match_price_here (String c s) = None -> in_price_class c = false.
Proof.
  intros H. destruct (in_price_class c) eqn:Hc; [|reflexivity].
  assert (Hrun : exists g, price_run (String c s) = Some g).
  { unfold price_run. simpl. rewrite Hc.
    destruct (span in_price_class s) as [a b]. simpl. eauto. }
  destruct Hrun as [g Hg]. apply price_run_Some in Hg as (_ & _ & Hg).
  congruence.
Qed.

Lemma search_price_Some (s g : string) :
  search_price s = Some g ->
  is_empty g = false /\ forallb_str in_price_class g = true.
Proof.
  induction s as [|c s IH]; simpl.
  - unfold price_run. simpl. discriminate.
  - fold (match_price_here (String c s)).
    destruct (match_price_here (String c s)) as [g'|] eqn:Hm.
    + intros [= <-]. eapply match_price_here_Some, Hm.
    + exact IH.
Qed.

Lemma search_price_None (s : string) :
  search_price s = None -> existsb_str in_price_class s = false.
Proof.
  induction s as [|c s IH]; simpl; [reflexivity|].
  fold (match_price_here (String c s)).
  destruct (match_price_here (String c s)) as [g'|] eqn:Hm; [discriminate|].
  intros H. rewrite (match_price_here_None _ _ Hm), (IH H). reflexivity.
Qed.

Lemma search_price_run (s g : string) :
  price_run s = Some g -> search_price s = Some g.
Proof.
  intros H. apply price_run_Some in H as (_ & _ & H).
  destruct s as [|c s]; [discriminate H|].
  change (search_price (String c s)) with
    (match match_price_here (String c s) with
     | Some g' => Some g'
     | None => search_price s
     end).
  rewrite H. reflexivity.
Qed.

(** Characters outside the class are skipped by the search. *)
Lemma search_price_skip (pre t : string) :
  existsb_str in_price_class pre = false ->
  search_price (pre +:+ t) = search_price t.
Proof.
  induction pre as [|c pre IH]; simpl; [reflexivity|].
  intros [Hc Hpre]%orb_false_elim.
  fold (match_price_here (String c (pre +:+ t))).
  assert (Hrun : price_run (String c (pre +:+ t)) = None)
    by (apply price_run_head, Hc).
  unfold match_price_here. rewrite Hrun.
  destruct (Ascii.eqb c "("); [|apply IH, Hpre].
  destruct (price_run (pre +:+ t)) as [g|] eqn:Hg; [|apply IH, Hpre].
  rewrite <- (IH Hpre). symmetry. apply search_price_run, Hg.
Qed.

(** ** Digits and floats *)

Lemma digit_not_comma (c : ascii) : is_digit c = true -> is_comma c = false.
Proof.
  unfold is_comma. destruct (Ascii.eqb_spec c ",") as [->|]; [discriminate | reflexivity].
Qed.

Lemma digit_not_float_space (c : ascii) : is_digit c = true -> is_float_space c = false.
Proof.
  unfold is_digit, is_float_space. generalize (N_of_ascii c) as n. intros n.
  rewrite andb_true_iff, !N.leb_le. intros [H1 H2].
  apply orb_false_intro.
  - apply andb_false_intro2, N.leb_gt. lia.
  - apply N.eqb_neq. lia.
Qed.

Lemma digit_not_sign (c : ascii) :
  is_digit c = true -> Ascii.eqb c "-" = false /\ Ascii.eqb c "+" = false.
Proof.
  intros H. split.
  - destruct (Ascii.eqb_spec c "-") as [->|]; [discriminate | reflexivity].
  - destruct (Ascii.eqb_spec c "+") as [->|]; [discriminate | reflexivity].
Qed.

Lemma digit_value_nonneg (c : ascii) : is_digit c = true -> 0 <= digit_value c.
Proof.
  unfold is_digit, digit_value. generalize (N_of_ascii c) as n. intros n.
  rewrite andb_true_iff, !N.leb_le. lia.
Qed.

Lemma digits_value_acc_nonneg (s : string) (acc : Z) :
  forallb_str is_digit s = true -> 0 <= acc -> 0 <= digits_value_acc acc s.
Proof.
  revert acc. induction s as [|c s IH]; simpl; intros acc; [tauto|].
  intros [Hc Hs]%andb_prop Hacc. apply IH; [exact Hs|].
  pose proof (digit_value_nonneg c Hc). lia.
Qed.

Lemma remove_commas_digits (g : string) :
  forallb_str in_price_class g = true ->
  forallb_str is_digit (remove_commas g) = true.
Proof.
  induction g as [|c g IH]; simpl; [reflexivity|].
  intros [Hc Hg]%andb_prop. unfold in_price_class in Hc.
  destruct (is_comma c) eqn:Hcomma; [auto|].
  rewrite orb_false_r in Hc. simpl. rewrite Hc, (IH Hg). reflexivity.
Qed.

Lemma remove_commas_no_digit (s : string) :
  existsb_str is_digit s = false -> existsb_str is_digit (remove_commas s) = false.
Proof.
  induction s as [|c s IH]; simpl; [reflexivity|].
  intros [Hc Hs]%orb_false_elim.
  destruct (is_comma c); simpl; [auto|]. rewrite Hc, (IH Hs). reflexivity.
Qed.

Lemma no_price_class_no_digit (s : string) :
  existsb_str in_price_class s = false -> existsb_str is_digit s = false.
Proof.
  induction s as [|c s IH]; simpl; [reflexivity|].
  unfold in_price_class at 1.
  intros [[Hc _]%orb_false_elim Hs]%orb_false_elim. rewrite Hc, (IH Hs). reflexivity.
Qed.

Lemma digits_no_float_space (s : string) :
  forallb_str is_digit s = true -> existsb_str is_float_space s = false.
Proof.
  induction s as [|c s IH]; simpl; [reflexivity|].
  intros [Hc Hs]%andb_prop. rewrite (digit_not_float_space c Hc), (IH Hs). reflexivity.
Qed.

Lemma round_half_even_nonneg (m e : Z) : 0 <= m -> 0 <= round_half_even m e.
Proof.
  intros Hm. unfold round_half_even.
  assert (0 <= Z.shiftr m e) by (apply Z.shiftr_nonneg, Hm).
  destruct (_ || _); lia.
Qed.

(** A float read from digits is a non-negative number or [+inf]. *)
Lemma float_of_Z_nonneg (m : Z) :
  0 <= m -> num_nonneg (PyFloat (float_of_Z m)) = true.
Proof.
  intros Hm. unfold float_of_Z, num_nonneg. simpl.
  destruct (m <? 2 ^ 53); simpl; [apply Z.leb_le, Hm|].
  destruct (_ <? 2 ^ 1024); simpl; [|reflexivity].
  apply Z.leb_le, Z.shiftl_nonneg, round_half_even_nonneg, Hm.
Qed.

(** [float] on a non-empty string of digits. *)
Lemma py_float_digits (d : string) :
  is_empty d = false -> forallb_str is_digit d = true ->
  py_float d = Return (float_of_Z (digits_value d)).
Proof.
  intros Hne Hd. unfold py_float, strip_with.
  destruct d as [|c d]; [discriminate|].
  pose proof Hd as Hd'. simpl in Hd'. apply andb_prop in Hd' as [Hc _].
  rewrite lstrip_head by (apply digit_not_float_space, Hc).
  rewrite rstrip_none by (apply digits_no_float_space, Hd).
  destruct (digit_not_sign c Hc) as [-> ->].
  unfold float_unsigned. rewrite Hd. reflexivity.
Qed.

(** [float] on a string without digits: an error, or one of the words. *)
Lemma float_unsigned_no_digit (t : string) :
  existsb_str is_digit t = false ->
  float_unsigned t = Raised ValueError \/
  float_unsigned t = Return FInf \/ float_unsigned t = Return FNaN.
Proof.
  intros Hno. unfold float_unsigned.
  destruct (negb (is_empty t) && forallb_str is_digit t) eqn:Hd.
  - apply andb_prop in Hd as [He Hall]. apply negb_true_iff in He.
    rewrite (forallb_nonempty_exists _ _ He Hall) in Hno. discriminate.
  - unfold float_word.
    destruct (_ || _); [auto|]. destruct (String.eqb _ "nan"); auto.
Qed.

Lemma py_float_no_digit (s : string) :
  existsb_str is_digit s = false ->
  py_float s = Raised ValueError \/ py_float s = Return FInf \/
  py_float s = Return FNegInf \/ py_float s = Return FNaN.
Proof.
  intros Hno. unfold py_float, strip_with.
  pose proof (existsb_rstrip is_digit is_float_space _
                (existsb_lstrip is_digit is_float_space _ Hno)) as Hst.
  destruct (rstrip_with is_float_space (lstrip_with is_float_space s)) as [|c t].
  - destruct (float_unsigned_no_digit EmptyString eq_refl) as [->| [->| ->]]; auto.
  - pose proof Hst as Ht. simpl in Ht. apply orb_false_elim in Ht as [_ Ht].
    destruct (Ascii.eqb c "-").
    + destruct (float_unsigned_no_digit t Ht) as [->| [->| ->]]; simpl; auto.
    + destruct (Ascii.eqb c "+").
      * destruct (float_unsigned_no_digit t Ht) as [->| [->| ->]]; auto.
      * destruct (float_unsigned_no_digit _ Hst) as [->| [->| ->]]; auto.
Qed.

(** ** [clean_price] *)

(** What [float] receives: digits only after a match, no digit otherwise. *)
Lemma clean_price_float_arg (x : pyobj) :
  forallb_str is_digit (price_text x) = true \/
  existsb_str is_digit (price_text x) = false.
Proof.
  unfold price_text. destruct (search_price (py_str x)) as [g|] eqn:Hs.
  - left. apply remove_commas_digits. eapply search_price_Some, Hs.
  - right. apply remove_commas_no_digit, no_price_class_no_digit, search_price_None, Hs.
Qed.

Lemma clean_price_total (x : pyobj) : exists v, clean_price x = Return v.
Proof.
  unfold clean_price. destruct (py_float (price_text x)); simpl; eauto.
Qed.

(** After a match the result is the value of the digits of the run, or the
    int 0 when the run holds commas only. *)
Lemma clean_price_matched (x : pyobj) (g : string) :
  search_price (py_str x) = Some g ->
  clean_price x =
    Return (if is_empty (remove_commas g) then PyInt 0
            else PyFloat (float_of_Z (digits_value (remove_commas g)))).
Proof.
  intros Hs. unfold clean_price, price_text. rewrite Hs.
  pose proof (remove_commas_digits g (proj2 (search_price_Some _ _ Hs))) as Hd.
  destruct (is_empty (remove_commas g)) eqn:He.
  - rewrite (is_empty_true _ He). reflexivity.
  - rewrite (py_float_digits _ He Hd). reflexivity.
Qed.

Lemma clean_price_matched_nonneg (x : pyobj) (g : string) (v : pynum) :
  search_price (py_str x) = Some g -> clean_price x = Return v ->
  num_nonneg v = true.
Proof.
  intros Hs Hv. rewrite (clean_price_matched x g Hs) in Hv. injection Hv as <-.
  destruct (is_empty (remove_commas g)); [reflexivity|].
  apply float_of_Z_nonneg, digits_value_acc_nonneg; [|lia].
  apply remove_commas_digits. eapply search_price_Some, Hs.
Qed.

Lemma clean_price_unmatched (x : pyobj) (v : pynum) :
  search_price (py_str x) = None -> clean_price x = Return v ->
  v = PyInt 0 \/ v = PyFloat FInf \/ v = PyFloat FNegInf \/ v = PyFloat FNaN.
Proof.
  intros Hs. unfold clean_price.
  assert (Hno : existsb_str is_digit (price_text x) = false).
  { unfold price_text. rewrite Hs.
    apply remove_commas_no_digit, no_price_class_no_digit, search_price_None, Hs. }
  destruct (py_float_no_digit _ Hno) as [->| [->| [->| ->]]]; simpl;
    intros [= <-]; auto.
Qed.

(** C3. [clean_price] never raises: on every string it returns a number,
    which is the int 0 when [float] rejects the text and the parsed float
    otherwise.  It returns 0 on the empty string, 12345.0 on ["12,345"],
    1000.0 on ["(1,000)"] and 0 on the unparseable ["N/A"]. *)
Theorem clean_price_never_raises :
  (forall s : string, exists v, clean_price (Str s) = Return v) /\
  (forall s : string,
      ((exists e, py_float (price_text (Str s)) = Raised e) /\
       clean_price (Str s) = Return (PyInt 0)) \/
      (exists f, py_float (price_text (Str s)) = Return f /\
                 clean_price (Str s) = Return (PyFloat f))) /\
  returns_eq (clean_price (Str "")) (PyFloat (FNum 0)) = true /\
  returns_eq (clean_price (Str "12,345")) (PyFloat (FNum 12345)) = true /\
  returns_eq (clean_price (Str "(1,000)")) (PyFloat (FNum 1000)) = true /\
  returns_eq (clean_price (Str "N/A")) (PyFloat (FNum 0)) = true.
Proof.
  split; [intros s; apply clean_price_total|].
  split; [|repeat split; vm_compute; reflexivity].
  intros s. unfold clean_price.
  destruct (py_float (price_text (Str s))) as [f|e]; simpl.
  - right. exists f. split; reflexivity.
  - left. split; [exists e|]; reflexivity.
Qed.

(** C4, as stated, fails: the minus sign of ["-123"] is not read, and the
    result is 123.0, not -123.0. *)
Lemma clean_price_negative_numeral_counterexample :
  returns_eq (clean_price (Str "-123")) (PyFloat (FNum (-123))) = false /\
  clean_price (Str "-123") = Return (PyFloat (FNum 123)).
Proof. split; vm_compute; reflexivity. Qed.

(** C4, amended.  On every string [clean_price] returns a number that is
    non-negative, unless the string has no digit and no comma and [float]
    reads it as negative infinity or NaN.  The sign of a numeral is never
    read: ["-123"] gives 123.0. *)
Theorem clean_price_sign (s : string) :
  (exists v, clean_price (Str s) = Return v /\
     (num_nonneg v = true \/
      (existsb_str in_price_class s = false /\
       (v = PyFloat FNegInf \/ v = PyFloat FNaN)))) /\
  clean_price (Str "-123") = Return (PyFloat (FNum 123)).
Proof.
  split; [|vm_compute; reflexivity].
  destruct (clean_price_total (Str s)) as [v Hv]. exists v. split; [exact Hv|].
  destruct (search_price (py_str (Str s))) as [g|] eqn:Hs.
  - left. eapply clean_price_matched_nonneg; eauto.
  - destruct (clean_price_unmatched _ _ Hs Hv) as [->| [->| [->| ->]]];
      [left; reflexivity | left; reflexivity | right | right];
      (split; [apply search_price_None, Hs | auto]).
Qed.



(** C6 at the amount ["10000000000000000"]: the first pass returns 1e16,
    whose text is ["1e+16"]; the second pass reads the run ["1"] and
    returns 1.0. *)
Theorem clean_price_reapplied_large :
  clean_price (Str "10000000000000000") = Return (PyFloat (FNum 10000000000000000)) /\
  py_str (Num (PyFloat (FNum 10000000000000000))) = "1e+16"%string /\
  clean_price (Num (PyFloat (FNum 10000000000000000))) = Return (PyFloat (FNum 1)).
Proof. repeat split; vm_compute; reflexivity. Qed.

(** ** [extract_prefix] *)

(** C5 at the label [" (Imported)"]: the text before the parenthesis is a
    blank, the match succeeds, and the result is the empty string, not the
    sentinel.  The other cases of the claim hold: the prefix is trimmed, and
    the empty, the blank and the parenthesis-first labels give the
    sentinel. *)
Theorem extract_prefix_blank_before_paren :
  extract_prefix (Str " (Imported)") = ""%string /\
  extract_prefix (Str "(Imported)") = other /\
  extract_prefix (Str "Snacks (Imported)") = "Snacks"%string /\
  extract_prefix (Str "") = other /\
  extract_prefix (Str "   ") = other.
Proof. repeat split; vm_compute; reflexivity. Qed.

(** ** Grouped sums *)

Lemma fold_sum_shift {A : Type} (f : A -> Z) (l : list A) (a : Z) :
  fold_left (fun acc x => acc + f x) l a = a + fold_left (fun acc x => acc + f x) l 0.
Proof.
  revert a. induction l as [|x l IH]; intros a; simpl; [lia|].
  rewrite (IH (a + f x)), (IH (0 + f x)). lia.
Qed.


Lemma column_sum_cons (val : Sale -> Z) (r : Sale) (df : list Sale) :
  column_sum val (r :: df) = val r + column_sum val df.
Proof. unfold column_sum. simpl. apply (fold_sum_shift val). Qed.





(** ** Comparison rows *)

(** C2. In every row of the report table the difference is the current
    value minus the previous one, and the rate is the difference divided by
    the previous value, 1 standing for a previous value of 0, times 100.
    On the sample periods the rows are A: 100, 150, +50, 50%; B: 50, 0, -50,
    -100%; C: 0, 20, +20, 2000%. *)
Theorem compare_report_delta :
  (forall (key : Sale -> string) (val : Sale -> Z) (df_prev df_curr : list Sale),
      Forall (fun r =>
                let prev := previous_value (merged r) in
                let divisor := if prev =? 0 then 1 else prev in
                delta r = current_value (merged r) - prev /\
                divisor <> 0 /\
                (delta_rate r == inject_Z (delta r) / inject_Z divisor * 100)%Q)
             (compare_report key val df_prev df_curr)) /\
  map (fun r => (row_key (merged r), previous_value (merged r),
                 current_value (merged r), delta r))
      (compare_report category_group sale_amount sample_prev sample_curr)
  = [("A"%string, 100, 150, 50); ("B"%string, 50, 0, -50); ("C"%string, 0, 20, 20)] /\
  Forall2 (fun r q => (delta_rate r == q)%Q)
          (compare_report category_group sale_amount sample_prev sample_curr)
          [50%Q; (-100)%Q; 2000%Q].
Proof.
  split.
  - intros key val df_prev df_curr. unfold compare_report.
    apply List.Forall_forall. intros r [m [<- _]]%in_map_iff. simpl.
    unfold replace_zero. split; [reflexivity|]. split; [|reflexivity].
    destruct (previous_value m =? 0) eqn:Hz; [lia|]. apply Z.eqb_neq, Hz.
  - split; [vm_compute; reflexivity|].
    repeat constructor; vm_compute; reflexivity.
Qed.

(** C1 on the periods [busy_prev] and [busy_curr]: group Z, sold for 1000
    in the current period only, has the largest combined amount and heads
    the ten keys of the specification; its aligned sum is NaN, it sorts
    last, and the comparison table holds the ten other groups. *)
Theorem compare_drops_single_period_key :
  lookup_key "Z" (groupby_sum category_group sale_amount busy_curr) = Some 1000 /\
  lookup_key "Z" (groupby_sum category_group sale_amount busy_prev) = None /\
  lookup_key "Z" (series_add (groupby_sum category_group sale_amount busy_prev)
                             (groupby_sum category_group sale_amount busy_curr))
    = Some None /\
  top10_spec category_group sale_amount busy_prev busy_curr
    = ["Z"; "g9"; "g8"; "g7"; "g6"; "g5"; "g4"; "g3"; "g2"; "g1"]%string /\
  map row_key (compare category_group sale_amount busy_prev busy_curr)
    = ["g0"; "g1"; "g2"; "g3"; "g4"; "g5"; "g6"; "g7"; "g8"; "g9"]%string.
Proof. repeat split; vm_compute; reflexivity. Qed.

(** ** Report metrics *)

(** C7 on an empty current period: the average order value is 0 by its
    guard, and the share of the top five groups has no value, since its
    divisor, the total amount, is 0.  The share is without value exactly
    when the total amount is 0. *)
Theorem sales_ratio_zero_total :
  avg_order_value [] = Quot 0 /\
  sales_ratio [] = Undefined /\
  (forall df : list Sale, sales_ratio df = Undefined <-> column_sum sale_amount df = 0).
Proof.
  split; [reflexivity|]. split; [reflexivity|].
  intros df. unfold sales_ratio, truediv.
  destruct (column_sum sale_amount df =? 0) eqn:Hz; simpl.
  - apply Z.eqb_eq in Hz. tauto.
  - apply Z.eqb_neq in Hz. split; [discriminate | tauto].
Qed.

(** ** The column check *)

Lemma mapM_total {A B : Type} (f : A -> outcome B) (l : list A) :
  (forall a, exists b, f a = Return b) -> exists bs, mapM f l = Return bs.
Proof.
  intros Hf. induction l as [|a l [bs IH]]; simpl; [eauto|].
  destruct (Hf a) as [b ->]. simpl. rewrite IH. simpl. eauto.
Qed.

Lemma has_column_true (df : DataFrame) (c : string) :
  has_column df c = true -> exists vs, columns df !! c = Some vs.
Proof. unfold has_column. destruct (columns df !! c); [eauto | discriminate]. Qed.

Lemma has_column_false (df : DataFrame) (c : string) :
  has_column df c = false -> columns df !! c = None.
Proof. unfold has_column. destruct (columns df !! c); [discriminate | reflexivity]. Qed.

Lemma set_column_lookup_ne (df : DataFrame) (c c' : string) (vs : list pyobj) :
  c <> c' -> columns (set_column df c vs) !! c' = columns df !! c'.
Proof. intros Hne. simpl. apply lookup_insert_ne, Hne. Qed.

Lemma set_column_lookup_eq (df : DataFrame) (c : string) (vs : list pyobj) :
  columns (set_column df c vs) !! c = Some vs.
Proof. simpl. apply lookup_insert_eq. Qed.

Lemma has_column_set_ne (df : DataFrame) (c c' : string) (vs : list pyobj) :
  c <> c' -> has_column (set_column df c vs) c' = has_column df c'.
Proof. intros Hne. unfold has_column. rewrite set_column_lookup_ne by exact Hne. reflexivity. Qed.

(** The loop stops on the first absent column that has no default, and
    otherwise fills the branch and the month. *)
Lemma check_columns_required (df : DataFrame) (label : string) :
  check_columns label required_cols df =
    if missing_required df then None
    else Some (with_month label (with_branch df)).
Proof.
  unfold required_cols, missing_required, non_defaultable, with_month, with_branch.
  cbn [check_columns existsb].
  change (String.eqb col_category col_branch) with false.
  change (String.eqb col_category col_month) with false.
  change (String.eqb col_product col_branch) with false.
  change (String.eqb col_product col_month) with false.
  change (String.eqb col_orders col_branch) with false.
  change (String.eqb col_orders col_month) with false.
  change (String.eqb col_amount col_branch) with false.
  change (String.eqb col_amount col_month) with false.
  change (String.eqb col_branch col_branch) with true.
  change (String.eqb col_month col_branch) with false.
  change (String.eqb col_month col_month) with true.
  destruct (has_column df col_category); [|reflexivity].
  destruct (has_column df col_product); [|reflexivity].
  destruct (has_column df col_orders); [|reflexivity].
  destruct (has_column df col_amount); [|reflexivity].
  cbn [negb orb].
  destruct (has_column df col_branch); cbn iota.
  - destruct (has_column df col_month); reflexivity.
  - destruct (has_column (set_scalar df col_branch (Str unassigned_branch)) col_month);
      reflexivity.
Qed.

Lemma with_defaults_lookup_other (df : DataFrame) (label c : string) :
  c <> col_branch -> c <> col_month ->
  columns (with_month label (with_branch df)) !! c = columns df !! c.
Proof.
  intros Hb Hm. unfold with_month, with_branch, set_scalar.
  repeat match goal with
         | |- context [if ?b then _ else _] => destruct b
         end;
    rewrite ?set_column_lookup_ne by congruence; reflexivity.
Qed.

Lemma with_defaults_nrows (df : DataFrame) (label : string) :
  nrows (with_month label (with_branch df)) = nrows df.
Proof.
  unfold with_month, with_branch, set_scalar.
  repeat match goal with
         | |- context [if ?b then _ else _] => destruct b
         end; reflexivity.
Qed.

Lemma with_defaults_branch (df : DataFrame) (label : string) :
  has_column df col_branch = false ->
  columns (with_month label (with_branch df)) !! col_branch
  = Some (replicate (nrows df) (Str unassigned_branch)).
Proof.
  intros Hb. unfold with_month, with_branch. rewrite Hb.
  destruct (has_column _ col_month).
  - apply set_column_lookup_eq.
  - unfold set_scalar at 1. rewrite set_column_lookup_ne by discriminate.
    apply set_column_lookup_eq.
Qed.

Lemma with_defaults_month (df : DataFrame) (label : string) :
  has_column df col_month = false ->
  columns (with_month label (with_branch df)) !! col_month
  = Some (replicate (nrows df) (Str label)).
Proof.
  intros Hm. unfold with_month.
  assert (Hm' : has_column (with_branch df) col_month = false).
  { unfold with_branch. destruct (has_column df col_branch); [exact Hm|].
    unfold set_scalar. rewrite has_column_set_ne by discriminate. exact Hm. }
  rewrite Hm'. unfold set_scalar. rewrite set_column_lookup_eq.
  f_equal. f_equal. unfold with_branch.
  destruct (has_column df col_branch); reflexivity.
Qed.

(** Once the columns are there, nothing in the body of the loader raises. *)
Lemma preprocess_present (df : DataFrame) (label : string) :
  missing_required df = false ->
  exists df',
    preprocess df label = Return (Some df') /\
    nrows df' = nrows df /\
    columns df' !! col_branch = columns (with_month label (with_branch df)) !! col_branch /\
    columns df' !! col_month = columns (with_month label (with_branch df)) !! col_month.
Proof.
  intros Hreq. unfold preprocess. rewrite check_columns_required, Hreq.
  set (df1 := with_month label (with_branch df)).
  unfold missing_required, non_defaultable in Hreq. cbn [existsb] in Hreq.
  repeat (apply orb_false_elim in Hreq as [?%negb_false_iff Hreq]).
  destruct (has_column_true df col_amount) as [amounts Ha]; [assumption|].
  destruct (has_column_true df col_category) as [names Hn]; [assumption|].
  unfold get_column.
  replace (columns df1 !! col_amount) with (Some amounts)
    by (symmetry; subst df1; rewrite with_defaults_lookup_other by discriminate; exact Ha).
  cbn [mbind outcome_bind].
  destruct (mapM_total clean_price amounts clean_price_total) as [cleaned ->].
  cbn [mbind outcome_bind].
  rewrite set_column_lookup_ne by discriminate.
  replace (columns df1 !! col_category) with (Some names)
    by (symmetry; subst df1; rewrite with_defaults_lookup_other by discriminate; exact Hn).
  eexists. split; [reflexivity|].
  split; [apply with_defaults_nrows|].
  split; rewrite !set_column_lookup_ne by discriminate; reflexivity.
Qed.

(** C8. On a decoded table the loader returns nothing exactly when one of
    the category, product, order count and amount columns is absent.  When
    the four are present the load succeeds, and an absent branch column is
    filled with the sentinel branch, an absent month column with the label
    passed to the loader, one copy per row. *)
Theorem load_missing_column (df : DataFrame) (label : string) :
  (load_and_preprocess_from_path (Some df) label = None <-> missing_required df = true) /\
  (missing_required df = false ->
   exists df',
     load_and_preprocess_from_path (Some df) label = Some df' /\
     (has_column df col_branch = false ->
      columns df' !! col_branch = Some (replicate (nrows df) (Str unassigned_branch))) /\
     (has_column df col_month = false ->
      columns df' !! col_month = Some (replicate (nrows df) (Str label)))).
Proof.
  assert (Hok : missing_required df = false ->
                exists df',
                  load_and_preprocess_from_path (Some df) label = Some df' /\
                  (has_column df col_branch = false ->
                   columns df' !! col_branch
                   = Some (replicate (nrows df) (Str unassigned_branch))) /\
                  (has_column df col_month = false ->
                   columns df' !! col_month = Some (replicate (nrows df) (Str label)))).
  { intros Hreq.
    destruct (preprocess_present df label Hreq) as (df' & Hp & _ & Hb & Hm).
    exists df'. unfold load_and_preprocess_from_path. rewrite Hp.
    split; [reflexivity|]. split; intros Habs.
    - rewrite Hb. apply with_defaults_branch, Habs.
    - rewrite Hm. apply with_defaults_month, Habs. }
  split; [|exact Hok].
  destruct (missing_required df) eqn:Hreq.
  - split; [reflexivity|]. intros _.
    unfold load_and_preprocess_from_path, preprocess.
    rewrite check_columns_required, Hreq. reflexivity.
  - destruct (Hok eq_refl) as (df' & -> & _). split; discriminate.
Qed.

(** The sample table lacks the branch and the month: it loads, and both
    columns are filled. *)
Lemma load_missing_column_witness :
  exists df',
    load_and_preprocess_from_path (Some sample_table) "당월" = Some df' /\
    columns df' !! col_branch = Some (replicate 2 (Str unassigned_branch)) /\
    columns df' !! col_month = Some (replicate 2 (Str "당월")).
Proof.
  destruct (proj2 (load_missing_column sample_table "당월") eq_refl)
    as (df' & Hload & Hb & Hm).
  exists df'. split; [exact Hload|].
  split; [exact (Hb eq_refl) | exact (Hm eq_refl)].
Defined.

(** ** The keys of the comparison table *)

Lemma compare_refl (s : string) : String.compare s s = Eq.
Proof.
  pose proof (String.compare_antisym s s) as H.
  destruct (String.compare s s); simpl in H; [reflexivity | discriminate | discriminate].
Qed.

Lemma compare_Eq_iff (s t : string) : String.compare s t = Eq <-> s = t.
Proof.
  split; [apply String.compare_eq_iff | intros ->; apply compare_refl].
Qed.

Lemma insert_key_In (k x : string) (ks : list string) :
  In x (insert_key k ks) <-> x = k \/ In x ks.
Proof.
  induction ks as [|k' ks IH]; simpl; [intuition|].
  destruct (String.compare k k') eqn:Hcmp; simpl.
  - apply compare_Eq_iff in Hcmp as ->. intuition.
  - intuition.
  - rewrite IH. intuition.
Qed.

Lemma index_union_In (a b : list string) (x : string) :
  In x (index_union a b) <-> In x a \/ In x b.
Proof.
  unfold index_union. rewrite <- in_app_iff.
  induction (a ++ b) as [|k l IH]; simpl; [tauto|].
  rewrite insert_key_In, IH. intuition.
Qed.

Lemma add_to_group_keys (k x : string) (v : Z) (s : list (string * Z)) :
  In x (keys (add_to_group k v s)) <-> x = k \/ In x (keys s).
Proof.
  unfold keys. induction s as [|[k' v'] s IH]; simpl; [intuition|].
  destruct (String.compare k k') eqn:Hcmp; simpl.
  - apply compare_Eq_iff in Hcmp as ->. intuition.
  - intuition.
  - rewrite IH. intuition.
Qed.

Lemma groupby_fold_keys (key : Sale -> string) (val : Sale -> Z)
      (df : list Sale) (acc : list (string * Z)) (x : string) :
  In x (keys (fold_left (fun a r => add_to_group (key r) (val r) a) df acc))
  <-> In x (keys acc) \/ exists r, In r df /\ key r = x.
Proof.
  revert acc. induction df as [|r df IH]; intros acc; simpl.
  - split; [auto | intros [H | (r & [] & _)]; exact H].
  - rewrite IH, add_to_group_keys. split.
    + intros [[-> | H] | (r' & Hr' & Hk)]; eauto.
    + intros [H | (r' & [<- | Hr'] & Hk)]; eauto.
Qed.

(** The keys of a grouped sum are the keys of the rows. *)
Lemma groupby_sum_keys (key : Sale -> string) (val : Sale -> Z) (df : list Sale) (x : string) :
  In x (keys (groupby_sum key val df)) <-> exists r, In r df /\ key r = x.
Proof.
  unfold groupby_sum. rewrite groupby_fold_keys. simpl. tauto.
Qed.

Lemma lookup_key_None {V : Type} (k : string) (s : list (string * V)) :
  lookup_key k s = None <-> ~ In k (keys s).
Proof.
  unfold keys. induction s as [|[k' v] s IH]; simpl; [tauto|].
  destruct (String.eqb_spec k k') as [->|Hne].
  - split; [discriminate | intros H; exfalso; apply H; auto].
  - rewrite IH. split; [intros H [Heq | Hin]; [congruence | tauto] | tauto].
Qed.

Lemma insert_desc_In {K : Type} (x y : K * Z) (l : list (K * Z)) :
  In y (insert_desc x l) <-> y = x \/ In y l.
Proof.
  induction l as [|z l IH]; simpl; [intuition|].
  destruct (snd x <? snd z); simpl; [rewrite IH|]; intuition.
Qed.

Lemma sort_desc_In {K : Type} (l : list (K * Z)) (y : K * Z) :
  In y (sort_desc l) <-> In y l.
Proof.
  unfold sort_desc. induction l as [|x l IH]; simpl; [tauto|].
  rewrite insert_desc_In, IH. intuition.
Qed.

Lemma known_In {K : Type} (s : list (K * option Z)) (k : K) (v : Z) :
  In (k, v) (known s) <-> In (k, Some v) s.
Proof.
  unfold known. induction s as [|[k' [v'|]] s IH]; simpl; [tauto| |].
  - rewrite IH. split; intros [H | H]; auto; left; congruence.
  - rewrite IH. split; [auto | intros [H | H]; [discriminate | exact H]].
Qed.

Lemma sort_values_desc_In (s : list (string * option Z)) (kv : string * option Z) :
  In kv (sort_values_desc s) <-> In kv s.
Proof.
  unfold sort_values_desc, unknown. rewrite in_app_iff, in_map_iff, filter_In.
  destruct kv as [k [v|]]; split.
  - intros [([k' v'] & [= <- <-] & H) | [_ [=]]].
    apply (proj1 (sort_desc_In _ _)) in H. apply (proj1 (known_In _ _ _)), H.
  - intros H. left. exists (k, v). split; [reflexivity|].
    apply (proj2 (sort_desc_In _ _)), (proj2 (known_In _ _ _)), H.
  - intros [(x & [=] & _) | [H _]]. exact H.
  - intros H. right. split; [exact H | reflexivity].
Qed.

Lemma take_In {A : Type} (n : nat) (l : list A) (x : A) : In x (take n l) -> In x l.
Proof.
  revert n. induction l as [|a l IH]; intros [|n]; simpl; try tauto.
  intros [H | H]; eauto.
Qed.

(** Every selected key is a key of one of the two periods. *)
Lemma top10_groups_In (key : Sale -> string) (val : Sale -> Z)
      (df_prev df_curr : list Sale) (k : string) :
  In k (top10_groups key val df_prev df_curr) ->
  (exists r, In r df_prev /\ key r = k) \/ (exists r, In r df_curr /\ key r = k).
Proof.
  unfold top10_groups, keys at 1. intros ([k' o] & <- & H)%in_map_iff.
  apply take_In in H. apply (proj1 (sort_values_desc_In _ _)) in H.
  unfold series_add in H.
  apply in_map_iff in H as (k & [= <- _] & H).
  apply index_union_In in H. rewrite !groupby_sum_keys in H. exact H.
Qed.

Lemma isin_In (top : list string) (k : string) : isin top k = true <-> In k top.
Proof.
  unfold isin. rewrite existsb_exists. split.
  - intros (x & Hx & ->%String.eqb_eq). exact Hx.
  - intros H. exists k. split; [exact H | apply String.eqb_refl].
Qed.

Lemma restrict_keys (key : Sale -> string) (val : Sale -> Z)
      (top : list string) (df : list Sale) (k : string) :
  In k (keys (groupby_sum key val (restrict key top df)))
  <-> In k top /\ exists r, In r df /\ key r = k.
Proof.
  rewrite groupby_sum_keys. unfold restrict. split.
  - intros (r & [Hr Hin]%filter_In & <-). apply isin_In in Hin. eauto.
  - intros (Htop & r & Hr & <-). exists r. split; [|reflexivity].
    apply filter_In. split; [exact Hr | apply isin_In, Htop].
Qed.

(** The merge keeps every selected key, whichever period it comes from: the
    keys of the comparison table are the selected keys. *)
Lemma compare_keys (key : Sale -> string) (val : Sale -> Z)
      (df_prev df_curr : list Sale) (k : string) :
  In k (map row_key (compare key val df_prev df_curr))
  <-> In k (top10_groups key val df_prev df_curr).
Proof.
  unfold compare, merge_outer_fillna. rewrite map_map. simpl. rewrite map_id.
  rewrite index_union_In, !restrict_keys. split.
  - tauto.
  - intros H. destruct (top10_groups_In _ _ _ _ _ H); tauto.
Qed.

(** A selected key absent from a period has 0 on that side. *)
Lemma compare_missing_side (key : Sale -> string) (val : Sale -> Z)
      (df_prev df_curr : list Sale) :
  Forall (fun row =>
            ((~ exists r, In r df_prev /\ key r = row_key row) -> previous_value row = 0) /\
            ((~ exists r, In r df_curr /\ key r = row_key row) -> current_value row = 0))
         (compare key val df_prev df_curr).
Proof.
  unfold compare, merge_outer_fillna. apply List.Forall_forall.
  intros row (k & <- & _)%in_map_iff. simpl. split; intros Hno.
  - replace (lookup_key k _) with (@None Z); [reflexivity|].
    symmetry. apply lookup_key_None. rewrite restrict_keys. tauto.
  - replace (lookup_key k _) with (@None Z); [reflexivity|].
    symmetry. apply lookup_key_None. rewrite restrict_keys. tauto.
Qed.

(** ** Re-applying [clean_price] below [10^16] *)

Lemma append_assoc (a b c : string) : (a +:+ b) +:+ c = a +:+ (b +:+ c).
Proof.
  induction a as [|x a IH]; [reflexivity|].
  change (String x ((a +:+ b) +:+ c) = String x (a +:+ (b +:+ c))).
  f_equal. exact IH.
Qed.

Lemma digits_value_acc_app (s t : string) (a : Z) :
  digits_value_acc a (s +:+ t) = digits_value_acc (digits_value_acc a s) t.
Proof. revert a. induction s as [|c s IH]; intros a; simpl; [reflexivity | apply IH]. Qed.

Lemma forallb_app (p : ascii -> bool) (s t : string) :
  forallb_str p (s +:+ t) = forallb_str p s && forallb_str p t.
Proof.
  induction s as [|c s IH]; simpl; [reflexivity|].
  rewrite IH. apply andb_assoc.
Qed.

Lemma digit_char_spec (d : Z) :
  0 <= d < 10 -> is_digit (digit_char d) = true /\ digit_value (digit_char d) = d.
Proof.
  intros Hd. unfold is_digit, digit_value, digit_char.
  rewrite N_ascii_embedding by lia. split.
  - apply andb_true_intro. split; apply N.leb_le; lia.
  - lia.
Qed.

Lemma dec_digits_app (fuel : nat) (z : Z) (acc : string) :
  dec_digits fuel z acc = dec_digits fuel z EmptyString +:+ acc.
Proof.
  revert z acc. induction fuel as [|fuel IH]; intros z acc; simpl; [reflexivity|].
  destruct (z <? 10); [reflexivity|].
  rewrite (IH _ (String _ acc)), (IH _ (String _ EmptyString)), append_assoc.
  reflexivity.
Qed.

Lemma dec_digits_S (fuel : nat) (z : Z) (acc : string) :
  dec_digits (S fuel) z acc =
    if z <? 10 then String (digit_char (z mod 10)) acc
    else dec_digits fuel (z / 10) (String (digit_char (z mod 10)) acc).
Proof. reflexivity. Qed.

(** With enough fuel the digits are well formed and read back as [z]. *)
Lemma dec_digits_value (n : nat) (z : Z) :
  0 <= z < 2 ^ Z.of_nat (S n) ->
  is_empty (dec_digits (S n) z EmptyString) = false /\
  forallb_str is_digit (dec_digits (S n) z EmptyString) = true /\
  digits_value (dec_digits (S n) z EmptyString) = z.
Proof.
  revert z. induction n as [|n IH]; intros z Hz; rewrite dec_digits_S;
    (destruct (digit_char_spec (z mod 10)) as [Hd Hv];
     [apply Z.mod_pos_bound; lia|]);
    destruct (z <? 10) eqn:Hlt.
  - apply Z.ltb_lt in Hlt. unfold digits_value. simpl. rewrite Hd, Hv.
    repeat split. apply Z.mod_small. lia.
  - apply Z.ltb_ge in Hlt. change (2 ^ Z.of_nat 1) with 2 in Hz. lia.
  - apply Z.ltb_lt in Hlt. unfold digits_value. simpl. rewrite Hd, Hv.
    repeat split. apply Z.mod_small. lia.
  - apply Z.ltb_ge in Hlt. rewrite dec_digits_app.
    assert (Hq : 0 <= z / 10 < 2 ^ Z.of_nat (S n)).
    { split; [apply Z.div_pos; lia|].
      apply Z.div_lt_upper_bound; [lia|].
      replace (Z.of_nat (S (S n))) with (Z.succ (Z.of_nat (S n))) in Hz by lia.
      rewrite Z.pow_succ_r in Hz by lia. lia. }
    destruct (IH _ Hq) as (Hne & Hall & Hval).
    revert Hne Hall Hval.
    generalize (dec_digits (S n) (z / 10) EmptyString) as hd.
    intros hd Hne Hall Hval. repeat split.
    + destruct hd; [discriminate | reflexivity].
    + rewrite forallb_app, Hall. simpl. rewrite Hd. reflexivity.
    + unfold digits_value in *. rewrite digits_value_acc_app, Hval. simpl.
      rewrite Hv. pose proof (Z.div_mod z 10). lia.
Qed.

Lemma dec_spec (z : Z) :
  0 <= z ->
  is_empty (dec z) = false /\ forallb_str is_digit (dec z) = true /\
  digits_value (dec z) = z.
Proof.
  intros Hz. unfold dec. apply dec_digits_value. split; [exact Hz|].
  destruct (Z.eq_dec z 0) as [->|Hnz]; [reflexivity|].
  rewrite Nat2Z.inj_succ, Z2Nat.id by apply Z.log2_nonneg.
  apply Z.log2_spec. lia.
Qed.

Lemma digits_no_comma (s : string) :
  forallb_str is_digit s = true -> remove_commas s = s.
Proof.
  induction s as [|c s IH]; simpl; [reflexivity|].
  intros [Hc Hs]%andb_prop. rewrite (digit_not_comma c Hc), (IH Hs). reflexivity.
Qed.

Lemma digits_in_price_class (s : string) :
  forallb_str is_digit s = true -> forallb_str in_price_class s = true.
Proof.
  induction s as [|c s IH]; simpl; [reflexivity|].
  intros [Hc Hs]%andb_prop. rewrite (IH Hs). unfold in_price_class. rewrite Hc. reflexivity.
Qed.

Lemma pow2_ge_2 (e : Z) : 1 <= e -> 2 <= 2 ^ e.
Proof. intros He. change 2 with (2 ^ 1) at 1. apply Z.pow_le_mono_r; lia. Qed.

(** Rounding an exact multiple: nothing is added. *)
Lemma round_half_even_exact (q e : Z) :
  1 <= e -> round_half_even (q * 2 ^ e) e = q.
Proof.
  intros He. unfold round_half_even.
  rewrite Z.shiftr_div_pow2, !Z.shiftl_mul_pow2 by lia.
  rewrite Z.div_mul by (apply Z.pow_nonzero; lia).
  rewrite Z.sub_diag.
  assert (Hh : 0 < 1 * 2 ^ (e - 1)) by (apply Z.mul_pos_pos; [lia | apply Z.pow_pos_nonneg; lia]).
  assert (H1 : (1 * 2 ^ (e - 1) <? 0) = false) by (apply Z.ltb_ge; lia).
  assert (H2 : (0 =? 1 * 2 ^ (e - 1)) = false) by (apply Z.eqb_neq; lia).
  rewrite H1, H2. reflexivity.
Qed.

(** A value produced by the rounding is kept by the rounding. *)
Lemma float_of_Z_idem (m z : Z) :
  0 <= m -> float_of_Z m = FNum z -> float_of_Z z = FNum z.
Proof.
  intros Hm. unfold float_of_Z at 1.
  destruct (m <? 2 ^ 53) eqn:Hsmall.
  { intros [= <-]. unfold float_of_Z. rewrite Hsmall. reflexivity. }
  apply Z.ltb_ge in Hsmall.
  set (e := Z.log2 m - 52). set (q := round_half_even m e).
  destruct (Z.shiftl q e <? 2 ^ 1024) eqn:Hbig; [|discriminate].
  intros [= <-].
  assert (Hlog : 53 <= Z.log2 m) by (apply Z.log2_le_pow2; lia).
  assert (He : 1 <= e) by (subst e; lia).
  pose proof (Z.log2_spec m ltac:(lia)) as [Hlo Hhi].
  replace (Z.log2 m) with (e + 52) in Hlo by (subst e; lia).
  replace (Z.succ (Z.log2 m)) with (e + 53) in Hhi by (subst e; lia).
  rewrite Z.pow_add_r in Hlo, Hhi by lia.
  assert (Hpe : 2 <= 2 ^ e) by (apply pow2_ge_2, He).
  assert (Hq0 : 2 ^ 52 <= Z.shiftr m e < 2 ^ 53).
  { rewrite Z.shiftr_div_pow2 by lia. split.
    - apply Z.div_le_lower_bound; lia.
    - apply Z.div_lt_upper_bound; lia. }
  assert (Hq : 2 ^ 52 <= q <= 2 ^ 53).
  { subst q. unfold round_half_even. destruct (_ || _); lia. }
  clearbody q. clear Hq0 Hlo Hhi Hlog Hsmall.
  rewrite Z.shiftl_mul_pow2 in * by lia.
  unfold float_of_Z.
  assert (Hge : (q * 2 ^ e <? 2 ^ 53) = false).
  { apply Z.ltb_ge. change (2 ^ 53) with (2 ^ 52 * 2). 
    apply Z.mul_le_mono_nonneg; lia. }
  rewrite Hge.
  destruct (Z.eq_dec q (2 ^ 53)) as [Heq|Hne].
  - assert (Hz : q * 2 ^ e = 2 ^ 52 * 2 ^ (e + 1)).
    { rewrite Heq, Z.pow_add_r by lia. change (2 ^ 53) with (2 ^ 52 * 2 ^ 1). ring. }
    assert (Hl : Z.log2 (q * 2 ^ e) = e + 53).
    { rewrite Hz, Z.log2_mul_pow2 by lia. change (Z.log2 (2 ^ 52)) with 52. lia. }
    rewrite Hl. replace (e + 53 - 52) with (e + 1) by lia.
    rewrite Hz. rewrite round_half_even_exact by lia.
    rewrite Z.shiftl_mul_pow2, <- Hz, Hbig by lia. reflexivity.
  - assert (Hlq : Z.log2 q = 52) by (apply Z.log2_unique; [lia|]; change (Z.succ 52) with 53; lia).
    rewrite Z.log2_mul_pow2, Hlq by lia.
    replace (e + 52 - 52) with e by lia.
    rewrite round_half_even_exact by lia.
    rewrite Z.shiftl_mul_pow2, Hbig by lia. reflexivity.
Qed.

(** The text of a float below [10^16] is read back as the same float. *)
Lemma clean_price_float_text (z : Z) :
  0 <= z < 10 ^ 16 -> float_of_Z z = FNum z ->
  clean_price (Num (PyFloat (FNum z))) = Return (PyFloat (FNum z)).
Proof.
  intros [Hz Hlt] Hrep.
  destruct (dec_spec z Hz) as (Hne & Hall & Hval).
  assert (Hs : search_price (py_str (Num (PyFloat (FNum z)))) = Some (dec z)).
  { simpl. assert ((z <? 0) = false) as -> by (apply Z.ltb_ge, Hz).
    unfold float_repr_abs. assert ((z <? 10 ^ 16) = true) as -> by (apply Z.ltb_lt, Hlt).
    apply search_price_run. unfold price_run.
    change ".0"%string with (String "." "0").
    rewrite span_app by (apply digits_in_price_class, Hall || reflexivity).
    rewrite Hne. reflexivity. }
  rewrite (clean_price_matched _ _ Hs), (digits_no_comma _ Hall), Hne, Hval, Hrep.
  reflexivity.
Qed.

(** A second pass over a result below [10^16] returns it unchanged. *)
Lemma clean_price_reapplied_below (x : pyobj) (z : Z) :
  clean_price x = Return (PyFloat (FNum z)) -> z < 10 ^ 16 ->
  clean_price (Num (PyFloat (FNum z))) = Return (PyFloat (FNum z)).
Proof.
  intros Hx Hlt.
  destruct (search_price (py_str x)) as [g|] eqn:Hs.
  - pose proof (clean_price_matched_nonneg x g _ Hs Hx) as Hnn.
    apply Z.leb_le in Hnn.
    rewrite (clean_price_matched x g Hs) in Hx.
    destruct (is_empty (remove_commas g)); [discriminate|].
    injection Hx as Hx.
    apply clean_price_float_text; [lia|].
    eapply float_of_Z_idem, Hx.
    apply digits_value_acc_nonneg; [|lia].
    apply remove_commas_digits. eapply search_price_Some, Hs.
  - destruct (clean_price_unmatched x _ Hs Hx) as [H| [H| [H| H]]]; discriminate.
Qed.

(** ** Blank prefixes and single-period keys *)

Lemma lstrip_app (sp : ascii -> bool) (b t : string) :
  forallb_str sp b = true -> lstrip_with sp (b +:+ t) = lstrip_with sp t.
Proof.
  induction b as [|c b IH]; [reflexivity|].
  change (String c b +:+ t) with (String c (b +:+ t)). simpl.
  intros [Hc Hb]%andb_prop. rewrite Hc. apply IH, Hb.
Qed.

Lemma strip_blank (b : string) : forallb_str is_space b = true -> strip b = EmptyString.
Proof.
  intros Hb. unfold strip, strip_with.
  replace b with (b +:+ EmptyString)
    by (clear Hb; induction b as [|c b IH];
        [reflexivity | change (String c (b +:+ "") = String c b); f_equal; exact IH]).
  rewrite lstrip_app by exact Hb. reflexivity.
Qed.

Lemma space_not_paren (b : string) :
  forallb_str is_space b = true -> forallb_str (not_char "(") b = true.
Proof.
  induction b as [|c b IH]; simpl; [reflexivity|].
  intros [Hc Hb]%andb_prop. rewrite (IH Hb), andb_true_r.
  unfold not_char. destruct (Ascii.eqb_spec c "(") as [->|]; [discriminate | reflexivity].
Qed.

(** Every label made of blanks followed by a parenthesis gets the empty
    string as its prefix key. *)
Lemma extract_prefix_blank_then_paren (b rest : string) :
  is_empty b = false -> forallb_str is_space b = true ->
  extract_prefix (Str (b +:+ String "(" rest)) = EmptyString.
Proof.
  intros Hne Hb. unfold extract_prefix. simpl isna. simpl py_str.
  assert (Hs : is_empty (strip (b +:+ String "(" rest)) = false).
  { unfold strip, strip_with. rewrite lstrip_app by exact Hb.
    rewrite lstrip_head by reflexivity. reflexivity. }
  rewrite Hs. simpl orb. cbv iota.
  unfold match_prefix.
  rewrite span_app by (apply space_not_paren, Hb || reflexivity).
  rewrite Hne. apply strip_blank, Hb.
Qed.

Lemma classic_in (k : string) (ks : list string) : In k ks \/ ~ In k ks.
Proof. destruct (in_dec string_dec k ks); auto. Qed.

(** A key of one period only has NaN as its aligned sum. *)
Lemma series_add_single_period (a b : list (string * Z)) (k : string) :
  In k (keys a) \/ In k (keys b) ->
  ~ (In k (keys a) /\ In k (keys b)) ->
  In (k, None) (series_add a b).
Proof.
  intros Hin Hnot. unfold series_add. apply in_map_iff. exists k.
  split; [|apply index_union_In, Hin].
  f_equal.
  destruct (lookup_key k a) as [x|] eqn:Ha; [|reflexivity].
  destruct (lookup_key k b) as [y|] eqn:Hb; [|reflexivity].
  exfalso. apply Hnot. split.
  - destruct (classic_in k (keys a)) as [H|H]; [exact H|].
    apply lookup_key_None in H. congruence.
  - destruct (classic_in k (keys b)) as [H|H]; [exact H|].
    apply lookup_key_None in H. congruence.
Qed.

(** ** The order of the keys *)

Lemma ascii_compare_lt_trans (a b c : ascii) :
  Ascii.compare a b = Lt -> Ascii.compare b c = Lt -> Ascii.compare a c = Lt.
Proof.
  unfold Ascii.compare. rewrite !N.compare_lt_iff. lia.
Qed.

Lemma key_lt_trans (a b c : string) : key_lt a b -> key_lt b c -> key_lt a c.
Proof.
  unfold key_lt. revert b c.
  induction a as [|x a IH]; intros [|y b] [|z c]; simpl; try congruence.
  destruct (Ascii.compare x y) eqn:Hxy; try discriminate;
    destruct (Ascii.compare y z) eqn:Hyz; try discriminate.
  - apply Ascii.compare_eq_iff in Hxy as ->. rewrite Hyz. apply IH.
  - apply Ascii.compare_eq_iff in Hxy as ->. rewrite Hyz. reflexivity.
  - apply Ascii.compare_eq_iff in Hyz as <-. rewrite Hxy. reflexivity.
  - rewrite (ascii_compare_lt_trans _ _ _ Hxy Hyz). reflexivity.
Qed.

Lemma key_lt_irrefl (a : string) : ~ key_lt a a.
Proof. unfold key_lt. rewrite compare_refl. discriminate. Qed.

Lemma compare_Gt_lt (a b : string) : String.compare a b = Gt -> key_lt b a.
Proof.
  unfold key_lt. rewrite (String.compare_antisym a b).
  destruct (String.compare b a); simpl; congruence.
Qed.

Lemma key_lt_not_In (k : string) (ks : list string) :
  Forall (key_lt k) ks -> ~ In k ks.
Proof.
  intros Hall Hin. apply (proj1 (List.Forall_forall _ _) Hall) in Hin.
  exact (key_lt_irrefl k Hin).
Qed.

Lemma key_lt_Forall_trans (a b : string) (ks : list string) :
  key_lt a b -> Forall (key_lt b) ks -> Forall (key_lt a) ks.
Proof.
  intros Hab Hall. eapply List.Forall_impl; [|exact Hall].
  intros c Hbc. exact (key_lt_trans _ _ _ Hab Hbc).
Qed.

Lemma sorted_NoDup (ks : list string) : StronglySorted key_lt ks -> NoDup ks.
Proof.
  induction 1 as [|k ks Hs IH Hall]; constructor; [|exact IH].
  rewrite list_elem_of_In. apply key_lt_not_In, Hall.
Qed.

(** Two sorted indexes with the same labels are the same list. *)
Lemma sorted_keys_ext (a b : list string) :
  StronglySorted key_lt a -> StronglySorted key_lt b ->
  (forall k, In k a <-> In k b) -> a = b.
Proof.
  intros Ha. revert b. induction Ha as [|x a Ha IH Hx]; intros b Hb Hab.
  - destruct b as [|y b]; [reflexivity|]. exfalso. apply (Hab y). left. reflexivity.
  - destruct Hb as [|y b Hb Hy]; [exfalso; apply (Hab x); left; reflexivity|].
    assert (Hxy : x = y).
    { destruct (proj1 (Hab x) (or_introl eq_refl)) as [Heq | Hin]; [congruence|].
      destruct (proj2 (Hab y) (or_introl eq_refl)) as [Heq | Hin']; [congruence|].
      exfalso. apply (key_lt_irrefl x).
      apply (key_lt_trans x y x).
      - exact (proj1 (List.Forall_forall _ _) Hx _ Hin').
      - exact (proj1 (List.Forall_forall _ _) Hy _ Hin). }
    subst y. f_equal. apply IH; [exact Hb|].
    intros k. split; intros Hk.
    + destruct (proj1 (Hab k) (or_intror Hk)) as [<- | H]; [|exact H].
      exfalso. exact (key_lt_not_In _ _ Hx Hk).
    + destruct (proj2 (Hab k) (or_intror Hk)) as [<- | H]; [|exact H].
      exfalso. exact (key_lt_not_In _ _ Hy Hk).
Qed.

Lemma insert_key_sorted (k : string) (ks : list string) :
  StronglySorted key_lt ks -> StronglySorted key_lt (insert_key k ks).
Proof.
  induction 1 as [|k' ks Hs IH Hall]; simpl.
  - repeat constructor.
  - destruct (String.compare k k') eqn:Hcmp.
    + constructor; assumption.
    + constructor; [constructor; assumption|].
      constructor; [exact Hcmp|]. eapply key_lt_Forall_trans; eauto.
    + constructor; [exact IH|].
      apply List.Forall_forall. intros x [-> | Hx]%insert_key_In.
      * apply compare_Gt_lt, Hcmp.
      * exact (proj1 (List.Forall_forall _ _) Hall _ Hx).
Qed.

Lemma index_union_sorted (a b : list string) :
  StronglySorted key_lt (index_union a b).
Proof.
  unfold index_union. induction (a ++ b) as [|k l IH]; simpl.
  - constructor.
  - apply insert_key_sorted, IH.
Qed.

Lemma index_union_comm (a b : list string) : index_union a b = index_union b a.
Proof.
  apply sorted_keys_ext; try apply index_union_sorted.
  intros k. rewrite !index_union_In. tauto.
Qed.

Lemma add_to_group_sorted (k : string) (v : Z) (s : list (string * Z)) :
  StronglySorted key_lt (keys s) -> StronglySorted key_lt (keys (add_to_group k v s)).
Proof.
  induction s as [|[k' v'] s IH]; simpl; intros Hs.
  - repeat constructor.
  - apply StronglySorted_inv in Hs as [Hs Hall].
    destruct (String.compare k k') eqn:Hcmp; simpl.
    + constructor; assumption.
    + constructor; [constructor; assumption|].
      constructor; [exact Hcmp|]. eapply key_lt_Forall_trans; eauto.
    + constructor; [apply IH, Hs|].
      apply List.Forall_forall. intros x [-> | Hx]%add_to_group_keys.
      * apply compare_Gt_lt, Hcmp.
      * exact (proj1 (List.Forall_forall _ _) Hall _ Hx).
Qed.

Lemma groupby_fold_sorted (key : Sale -> string) (val : Sale -> Z)
      (df : list Sale) (acc : list (string * Z)) :
  StronglySorted key_lt (keys acc) ->
  StronglySorted key_lt (keys (fold_left (fun a r => add_to_group (key r) (val r) a) df acc)).
Proof.
  revert acc. induction df as [|r df IH]; intros acc Hacc; simpl; [exact Hacc|].
  apply IH, add_to_group_sorted, Hacc.
Qed.

Lemma groupby_sum_sorted (key : Sale -> string) (val : Sale -> Z) (df : list Sale) :
  StronglySorted key_lt (keys (groupby_sum key val df)).
Proof. apply groupby_fold_sorted. constructor. Qed.

(** ** The sum of one group *)


Lemma lookup_add_to_group (k k' : string) (v : Z) (s : list (string * Z)) :
  StronglySorted key_lt (keys s) ->
  lookup_key k (add_to_group k' v s) =
    if String.eqb k k' then Some (default 0 (lookup_key k s) + v) else lookup_key k s.
Proof.
  induction s as [|[k1 v1] s IH]; simpl; intros Hs.
  - destruct (String.eqb k k'); reflexivity.
  - apply StronglySorted_inv in Hs as [Hs Hall].
    destruct (String.compare k' k1) eqn:Hcmp; simpl.
    + apply compare_Eq_iff in Hcmp as ->.
      destruct (String.eqb k k1); reflexivity.
    + destruct (String.eqb_spec k k') as [->|Hne]; [|reflexivity].
      assert (Hk1 : String.eqb k' k1 = false).
      { apply String.eqb_neq. intros ->. exact (key_lt_irrefl _ Hcmp). }
      rewrite Hk1.
      assert (Hnone : lookup_key k' s = None).
      { apply lookup_key_None, key_lt_not_In.
        eapply key_lt_Forall_trans; eauto. }
      rewrite Hnone. reflexivity.
    + rewrite (IH Hs).
      destruct (String.eqb_spec k k1) as [->|Hne]; [|reflexivity].
      assert (Hk1 : String.eqb k1 k' = false).
      { apply String.eqb_neq. intros ->. apply compare_Gt_lt in Hcmp.
        exact (key_lt_irrefl _ Hcmp). }
      rewrite Hk1. reflexivity.
Qed.

Lemma rows_with_cons (key : Sale -> string) (k : string) (r : Sale) (df : list Sale) :
  rows_with key k (r :: df) =
    if String.eqb (key r) k then r :: rows_with key k df else rows_with key k df.
Proof. reflexivity. Qed.

Lemma rows_with_none (key : Sale -> string) (k : string) (df : list Sale) :
  existsb (fun r => String.eqb (key r) k) df = false -> rows_with key k df = [].
Proof.
  induction df as [|r df IH]; [reflexivity|].
  intros H. simpl in H. apply orb_false_elim in H as [Hr Hdf].
  rewrite rows_with_cons, Hr. apply IH, Hdf.
Qed.

Lemma groupby_fold_lookup (key : Sale -> string) (val : Sale -> Z)
      (df : list Sale) (acc : list (string * Z)) (k : string) :
  StronglySorted key_lt (keys acc) ->
  lookup_key k (fold_left (fun a r => add_to_group (key r) (val r) a) df acc) =
    match lookup_key k acc with
    | Some v => Some (v + column_sum val (rows_with key k df))
    | None =>
        if existsb (fun r => String.eqb (key r) k) df
        then Some (column_sum val (rows_with key k df))
        else None
    end.
Proof.
  revert acc. induction df as [|r df IH]; intros acc Hacc.
  - unfold column_sum. simpl. destruct (lookup_key k acc); [f_equal; lia | reflexivity].
  - cbn [fold_left existsb].
    rewrite (IH _ (add_to_group_sorted _ _ _ Hacc)), (lookup_add_to_group _ _ _ _ Hacc).
    rewrite rows_with_cons, (String.eqb_sym (key r) k).
    destruct (String.eqb k (key r)); simpl.
    + rewrite column_sum_cons. destruct (lookup_key k acc); simpl; f_equal; lia.
    + reflexivity.
Qed.

(** The entry of a key is the sum of the measure over the rows of the key;
    a key without a row has no entry. *)
Lemma groupby_sum_lookup (key : Sale -> string) (val : Sale -> Z) (df : list Sale) (k : string) :
  lookup_key k (groupby_sum key val df) =
    if existsb (fun r => String.eqb (key r) k) df
    then Some (column_sum val (rows_with key k df))
    else None.
Proof.
  unfold groupby_sum. rewrite groupby_fold_lookup by constructor. reflexivity.
Qed.

Lemma groupby_sum_default (key : Sale -> string) (val : Sale -> Z) (df : list Sale) (k : string) :
  default 0 (lookup_key k (groupby_sum key val df)) = column_sum val (rows_with key k df).
Proof.
  rewrite groupby_sum_lookup.
  destruct (existsb _ df) eqn:He; simpl; [reflexivity|].
  rewrite (rows_with_none _ _ _ He). reflexivity.
Qed.






(** ** The rows of the comparison table *)

Lemma rows_with_restrict (key : Sale -> string) (top : list string) (df : list Sale) (k : string) :
  In k top -> rows_with key k (restrict key top df) = rows_with key k df.
Proof.
  intros Hk. unfold rows_with, restrict.
  induction df as [|r df IH]; simpl; [reflexivity|].
  destruct (String.eqb_spec (key r) k) as [Heq|Hne].
  - assert (Hin : isin top (key r) = true) by (apply isin_In; rewrite Heq; exact Hk).
    rewrite Hin. simpl. destruct (String.eqb_spec (key r) k); [|contradiction].
    rewrite IH. reflexivity.
  - destruct (isin top (key r)); simpl; [|exact IH].
    destruct (String.eqb_spec (key r) k); [contradiction | exact IH].
Qed.

Lemma compare_row_keys (key : Sale -> string) (val : Sale -> Z) (df_prev df_curr : list Sale) :
  StronglySorted key_lt (map row_key (compare key val df_prev df_curr)).
Proof.
  unfold compare, merge_outer_fillna. rewrite map_map. simpl. rewrite map_id.
  apply index_union_sorted.
Qed.

Lemma top10_groups_length (key : Sale -> string) (val : Sale -> Z) (df_prev df_curr : list Sale) :
  (length (top10_groups key val df_prev df_curr) <= 10)%nat.
Proof.
  unfold top10_groups, keys. rewrite length_map. apply firstn_le_length.
Qed.

Lemma compare_row_values (key : Sale -> string) (val : Sale -> Z)
      (df_prev df_curr : list Sale) (row : CompareRow) :
  In row (compare key val df_prev df_curr) ->
  current_value row = column_sum val (rows_with key (row_key row) df_curr) /\
  previous_value row = column_sum val (rows_with key (row_key row) df_prev).
Proof.
  intros Hrow.
  assert (Htop : In (row_key row) (top10_groups key val df_prev df_curr)).
  { apply compare_keys, in_map, Hrow. }
  unfold compare, merge_outer_fillna in Hrow.
  apply in_map_iff in Hrow as (k & <- & _). simpl in *.
  rewrite !groupby_sum_default, !rows_with_restrict by exact Htop.
  split; reflexivity.
Qed.

(** ** Selection without single-period keys *)

Lemma insert_desc_length {K : Type} (x : K * Z) (l : list (K * Z)) :
  length (insert_desc x l) = S (length l).
Proof.
  induction l as [|y l IH]; simpl; [reflexivity|].
  destruct (snd x <? snd y); simpl; [rewrite IH|]; reflexivity.
Qed.

Lemma sort_desc_length {K : Type} (l : list (K * Z)) : length (sort_desc l) = length l.
Proof.
  unfold sort_desc. induction l as [|x l IH]; simpl; [reflexivity|].
  rewrite insert_desc_length, IH. reflexivity.
Qed.

Lemma known_unknown_length {K : Type} (s : list (K * option Z)) :
  (length (known s) + length (unknown s))%nat = length s.
Proof.
  induction s as [|[k [v|]] s IH]; [reflexivity| |].
  - change (S (length (known s) + length (unknown s)) = S (length s))%nat.
    rewrite IH. reflexivity.
  - change (length (known s) + S (length (unknown s)) = S (length s))%nat.
    rewrite <- IH. lia.
Qed.

Lemma sort_values_desc_length (s : list (string * option Z)) :
  length (sort_values_desc s) = length s.
Proof.
  unfold sort_values_desc. rewrite length_app, length_map, sort_desc_length.
  apply known_unknown_length.
Qed.





Lemma top10_groups_few (key : Sale -> string) (val : Sale -> Z)
      (df_prev df_curr : list Sale) (k : string) :
  (length (index_union (keys (groupby_sum key val df_prev))
                       (keys (groupby_sum key val df_curr))) <= 10)%nat ->
  In k (top10_groups key val df_prev df_curr) <->
  (exists r, In r df_prev /\ key r = k) \/ (exists r, In r df_curr /\ key r = k).
Proof.
  intros Hlen. split; [apply top10_groups_In|].
  intros Hk. unfold top10_groups.
  rewrite firstn_all2.
  - unfold keys at 1. apply in_map_iff.
    rewrite <- !groupby_sum_keys with (val := val) in Hk.
    apply index_union_In in Hk.
    eexists (k, _). split; [reflexivity|].
    apply sort_values_desc_In. unfold series_add. apply in_map_iff.
    exists k. split; [reflexivity | exact Hk].
  - rewrite sort_values_desc_length. unfold series_add. rewrite length_map. exact Hlen.
Qed.

(** ** Swapping the periods *)

Lemma series_add_comm (a b : list (string * Z)) : series_add a b = series_add b a.
Proof.
  unfold series_add. rewrite (index_union_comm (keys a) (keys b)).
  apply map_ext. intros k.
  destruct (lookup_key k a), (lookup_key k b); try reflexivity.
  f_equal. f_equal. lia.
Qed.

Lemma top10_groups_comm (key : Sale -> string) (val : Sale -> Z) (df_prev df_curr : list Sale) :
  top10_groups key val df_prev df_curr = top10_groups key val df_curr df_prev.
Proof. unfold top10_groups. rewrite series_add_comm. reflexivity. Qed.

Lemma compare_swap (key : Sale -> string) (val : Sale -> Z) (df_prev df_curr : list Sale) :
  compare key val df_curr df_prev = map swap_row (compare key val df_prev df_curr).
Proof.
  unfold compare, merge_outer_fillna.
  rewrite (top10_groups_comm key val df_curr df_prev), map_map.
  rewrite (index_union_comm (keys (groupby_sum key val (restrict key _ df_prev)))).
  reflexivity.
Qed.

(** ** Sorting by value *)















(** ** Sums of sorted and truncated Series *)











(** ** The first run decides *)

Lemma span_run (p : ascii -> bool) (run rest : string) :
  forallb_str p run = true ->
  match rest with EmptyString => true | String c _ => negb (p c) end = true ->
  span p (run +:+ rest) = (run, rest).
Proof.
  intros Hrun Hrest. destruct rest as [|c rest].
  - replace (run +:+ "") with run; [apply span_all, Hrun|].
    clear. induction run as [|x run IH]; [reflexivity|].
    change (String x run = String x (run +:+ "")). f_equal. exact IH.
  - apply span_app; [exact Hrun | apply negb_true_iff, Hrest].
Qed.

Lemma search_price_first_run (pre run rest : string) :
  existsb_str in_price_class pre = false ->
  is_empty run = false ->
  forallb_str in_price_class run = true ->
  ends_run rest = true ->
  search_price (pre +:+ run +:+ rest) = Some run.
Proof.
  intros Hpre Hne Hrun Hrest.
  rewrite search_price_skip by exact Hpre. apply search_price_run.
  unfold price_run. rewrite (span_run in_price_class run rest Hrun Hrest), Hne.
  reflexivity.
Qed.




(** ** Numeric cells *)

Lemma float_of_Z_small (z : Z) : 0 <= z < 2 ^ 53 -> float_of_Z z = FNum z.
Proof.
  intros [_ Hlt]. unfold float_of_Z.
  destruct (z <? 2 ^ 53) eqn:H; [reflexivity|]. apply Z.ltb_ge in H. lia.
Qed.

Lemma clean_price_digits (pre : string) (z : Z) (rest : string) :
  existsb_str in_price_class pre = false -> 0 <= z < 2 ^ 53 -> ends_run rest = true ->
  clean_price (Str (pre +:+ dec z +:+ rest)) = Return (PyFloat (FNum z)).
Proof.
  intros Hpre Hz Hrest.
  destruct (dec_spec z (proj1 Hz)) as (Hne & Hall & Hval).
  rewrite (clean_price_matched (Str (pre +:+ dec z +:+ rest)) (dec z)).
  - rewrite (digits_no_comma _ Hall), Hne, Hval, (float_of_Z_small z Hz). reflexivity.
  - apply search_price_first_run; auto. apply digits_in_price_class, Hall.
Qed.

Lemma append_empty_r (s : string) : s +:+ EmptyString = s.
Proof.
  induction s as [|x s IH]; [reflexivity|].
  change (String x (s +:+ "") = String x s). f_equal. exact IH.
Qed.

Lemma clean_price_int_cell (z : Z) :
  Z.abs z < 2 ^ 53 -> clean_price (Num (PyInt z)) = Return (PyFloat (FNum (Z.abs z))).
Proof.
  intros Hz.
  assert (Hstr : py_str (Num (PyInt z)) =
                 (if z <? 0 then "-" else "") +:+ dec (Z.abs z) +:+ "").
  { simpl. rewrite append_empty_r. destruct (z <? 0) eqn:Hneg.
    - apply Z.ltb_lt in Hneg. rewrite Z.abs_neq by lia. reflexivity.
    - apply Z.ltb_ge in Hneg. rewrite Z.abs_eq by lia. reflexivity. }
  unfold clean_price, price_text. rewrite Hstr.
  fold (price_text (Str ((if z <? 0 then "-" else "") +:+ dec (Z.abs z) +:+ ""))).
  fold (clean_price (Str ((if z <? 0 then "-" else "") +:+ dec (Z.abs z) +:+ ""))).
  apply clean_price_digits; [destruct (z <? 0); reflexivity | lia | reflexivity].
Qed.

Lemma clean_price_float_cell (z : Z) :
  Z.abs z < 2 ^ 53 ->
  clean_price (Num (PyFloat (FNum z))) = Return (PyFloat (FNum (Z.abs z))).
Proof.
  intros Hz.
  assert (H16 : Z.abs z < 10 ^ 16).
  { eapply Z.lt_trans; [exact Hz | reflexivity]. }
  assert (Hstr : py_str (Num (PyFloat (FNum z))) =
                 (if z <? 0 then "-" else "") +:+ dec (Z.abs z) +:+ ".0").
  { simpl. unfold float_repr_abs. destruct (z <? 0) eqn:Hneg.
    - apply Z.ltb_lt in Hneg. rewrite Z.abs_neq in * by lia.
      assert ((- z <? 10 ^ 16) = true) as -> by (apply Z.ltb_lt; lia). reflexivity.
    - apply Z.ltb_ge in Hneg. rewrite Z.abs_eq in * by lia.
      assert ((z <? 10 ^ 16) = true) as -> by (apply Z.ltb_lt; lia). reflexivity. }
  unfold clean_price, price_text. rewrite Hstr.
  fold (price_text (Str ((if z <? 0 then "-" else "") +:+ dec (Z.abs z) +:+ ".0"))).
  fold (clean_price (Str ((if z <? 0 then "-" else "") +:+ dec (Z.abs z) +:+ ".0"))).
  apply clean_price_digits; [destruct (z <? 0); reflexivity | lia | reflexivity].
Qed.

(** ** The group in parentheses *)

Lemma not_char_forallb (a : ascii) (s : string) :
  existsb_str (fun c => Ascii.eqb c a) s = false <-> forallb_str (not_char a) s = true.
Proof.
  unfold not_char. induction s as [|c s IH]; simpl; [tauto|].
  rewrite orb_false_iff, andb_true_iff, negb_true_iff, IH. tauto.
Qed.

Lemma match_paren_here_other (c : ascii) (s : string) :
  is_paren_open c = false -> match_paren_here (String c s) = None.
Proof. unfold is_paren_open. intros H. simpl. rewrite H. reflexivity. Qed.

Lemma search_paren_skip (pre t : string) :
  existsb_str is_paren_open pre = false ->
  search_paren (pre +:+ t) = search_paren t.
Proof.
  induction pre as [|c pre IH]; [reflexivity|].
  intros H. simpl in H. apply orb_false_elim in H as [Hc Hpre].
  change (String c pre +:+ t) with (String c (pre +:+ t)).
  change (search_paren (String c (pre +:+ t))) with
    (match match_paren_here (String c (pre +:+ t)) with
     | Some g => Some g
     | None => search_paren (pre +:+ t)
     end).
  rewrite (match_paren_here_other c _ Hc). apply IH, Hpre.
Qed.


Lemma search_paren_unclosed (s : string) :
  existsb_str is_paren_close s = false -> search_paren s = None.
Proof.
  induction s as [|c s IH]; [reflexivity|].
  intros H. simpl in H. apply orb_false_elim in H as [Hc Hs].
  change (search_paren (String c s)) with
    (match match_paren_here (String c s) with
     | Some g => Some g
     | None => search_paren s
     end).
  assert (Hm : match_paren_here (String c s) = None).
  { simpl. destruct (Ascii.eqb c "("); [|reflexivity].
    rewrite span_all by (apply not_char_forallb, Hs).
    rewrite orb_true_r. reflexivity. }
  rewrite Hm. apply IH, Hs.
Qed.

Lemma search_paren_unopened (s : string) :
  existsb_str is_paren_open s = false -> search_paren s = None.
Proof.
  intros H. rewrite <- (append_empty_r s), search_paren_skip by exact H. reflexivity.
Qed.

Lemma match_paren_here_no_close (s g : string) :
  match_paren_here s = Some g -> existsb_str is_paren_close g = false.
Proof.
  destruct s as [|c s]; simpl; [discriminate|].
  destruct (Ascii.eqb c "("); [|discriminate].
  pose proof (span_fst_forallb (not_char ")") s) as Hall.
  destruct (span (not_char ")") s) as [g' rest]. simpl in Hall.
  destruct (is_empty g' || is_empty rest); [discriminate|].
  intros [= <-]. apply not_char_forallb, Hall.
Qed.

Lemma search_paren_no_close (s g : string) :
  search_paren s = Some g -> existsb_str is_paren_close g = false.
Proof.
  induction s as [|c s IH]; [discriminate|].
  change (search_paren (String c s)) with
    (match match_paren_here (String c s) with
     | Some g => Some g
     | None => search_paren s
     end).
  destruct (match_paren_here (String c s)) as [g'|] eqn:Hm; [|exact IH].
  intros [= <-]. eapply match_paren_here_no_close, Hm.
Qed.

(** ** Trimming *)

Lemma rstrip_idem (sp : ascii -> bool) (s : string) :
  rstrip_with sp (rstrip_with sp s) = rstrip_with sp s.
Proof.
  induction s as [|c s IH]; [reflexivity|]. simpl.
  destruct (sp c && is_empty (rstrip_with sp s)) eqn:H; [reflexivity|].
  simpl. rewrite IH, H. reflexivity.
Qed.

Lemma rstrip_head (sp : ascii -> bool) (c : ascii) (s : string) :
  sp c = false -> rstrip_with sp (String c s) = String c (rstrip_with sp s).
Proof. intros H. simpl. rewrite H. reflexivity. Qed.

Lemma lstrip_result (sp : ascii -> bool) (s : string) :
  lstrip_with sp s = EmptyString \/
  exists c t, lstrip_with sp s = String c t /\ sp c = false.
Proof.
  induction s as [|c s IH]; simpl; [auto|].
  destruct (sp c) eqn:H; [exact IH|]. right. eauto.
Qed.

Lemma strip_idem (sp : ascii -> bool) (s : string) :
  strip_with sp (strip_with sp s) = strip_with sp s.
Proof.
  unfold strip_with.
  destruct (lstrip_result sp s) as [-> | (c & t & -> & Hc)]; [reflexivity|].
  rewrite (rstrip_head sp c t Hc), (lstrip_head sp c _ Hc).
  rewrite <- (rstrip_head sp c t Hc). apply rstrip_idem.
Qed.

Lemma existsb_strip (p sp : ascii -> bool) (s : string) :
  existsb_str p s = false -> existsb_str p (strip_with sp s) = false.
Proof. intros H. apply existsb_rstrip, existsb_lstrip, H. Qed.

(** ** The text before the parenthesis *)




Lemma match_prefix_no_open (s g : string) :
  match_prefix s = Some g -> existsb_str is_paren_open g = false.
Proof.
  unfold match_prefix.
  pose proof (span_fst_forallb (not_char "(") s) as Hall.
  destruct (span (not_char "(") s) as [g' rest]. simpl in Hall.
  destruct (is_empty g'); [discriminate|].
  intros [= <-]. apply not_char_forallb, Hall.
Qed.


Lemma extract_prefix_paren_first (r : string) :
  extract_prefix (Str (String "(" r)) = other.
Proof.
  unfold extract_prefix. simpl isna. simpl py_str.
  assert (Hs : is_empty (strip (String "(" r)) = false).
  { unfold strip, strip_with. rewrite lstrip_head by reflexivity.
    rewrite rstrip_head by reflexivity. reflexivity. }
  rewrite Hs. reflexivity.
Qed.

Lemma extract_prefix_blank (b : string) :
  forallb_str is_space b = true -> extract_prefix (Str b) = other.
Proof.
  intros Hb. unfold extract_prefix. simpl isna. simpl py_str.
  rewrite (strip_blank b Hb). reflexivity.
Qed.

Lemma extract_prefix_trimmed (x : pyobj) :
  strip (extract_prefix x) = extract_prefix x /\
  existsb_str is_paren_open (extract_prefix x) = false.
Proof.
  unfold extract_prefix.
  destruct (isna x || is_empty (strip (py_str x))); [split; reflexivity|].
  destruct (match_prefix (py_str x)) as [g|] eqn:Hm; [|split; reflexivity].
  split; [apply strip_idem|].
  apply existsb_strip. eapply match_prefix_no_open, Hm.
Qed.

Lemma extract_paren_trimmed (x : pyobj) :
  strip (extract_paren x) = extract_paren x /\
  existsb_str is_paren_close (extract_paren x) = false.
Proof.
  unfold extract_paren.
  destruct (search_paren (py_str x)) as [g|] eqn:Hm; [|split; reflexivity].
  split; [apply strip_idem|].
  apply existsb_strip. eapply search_paren_no_close, Hm.
Qed.

(** ** The loaded table *)

Lemma mapM_clean_price (l : list pyobj) :
  mapM clean_price l = Return (map clean_value l).
Proof.
  induction l as [|x l IH]; [reflexivity|].
  cbn [mapM map]. unfold clean_value at 1.
  destruct (clean_price_total x) as [v ->]. cbn [mbind outcome_bind].
  rewrite IH. reflexivity.
Qed.

Lemma preprocess_loaded (df : DataFrame) (label : string) :
  missing_required df = false ->
  exists amounts names,
    columns df !! col_amount = Some amounts /\
    columns df !! col_category = Some names /\
    preprocess df label = Return (Some (loaded_table df label amounts names)).
Proof.
  intros Hreq. unfold preprocess. rewrite check_columns_required, Hreq.
  set (df1 := with_month label (with_branch df)).
  unfold missing_required, non_defaultable in Hreq. cbn [existsb] in Hreq.
  repeat (apply orb_false_elim in Hreq as [?%negb_false_iff Hreq]).
  destruct (has_column_true df col_amount) as [amounts Ha]; [assumption|].
  destruct (has_column_true df col_category) as [names Hn]; [assumption|].
  exists amounts, names. split; [exact Ha|]. split; [exact Hn|].
  unfold get_column.
  replace (columns df1 !! col_amount) with (Some amounts)
    by (symmetry; subst df1; rewrite with_defaults_lookup_other by discriminate; exact Ha).
  cbn [mbind outcome_bind]. rewrite mapM_clean_price. cbn [mbind outcome_bind].
  rewrite set_column_lookup_ne by discriminate.
  replace (columns df1 !! col_category) with (Some names)
    by (symmetry; subst df1; rewrite with_defaults_lookup_other by discriminate; exact Hn).
  unfold loaded_table. rewrite map_map. reflexivity.
Qed.

Lemma load_loaded (df df' : DataFrame) (label : string) :
  load_and_preprocess_from_path (Some df) label = Some df' ->
  exists amounts names,
    columns df !! col_amount = Some amounts /\
    columns df !! col_category = Some names /\
    df' = loaded_table df label amounts names.
Proof.
  intros Hload. destruct (missing_required df) eqn:Hreq.
  - unfold load_and_preprocess_from_path, preprocess in Hload.
    rewrite check_columns_required, Hreq in Hload. discriminate.
  - destruct (preprocess_loaded df label Hreq) as (amounts & names & Ha & Hn & Hp).
    unfold load_and_preprocess_from_path in Hload. rewrite Hp in Hload.
    injection Hload as <-. eauto.
Qed.

Lemma with_defaults_present (df : DataFrame) (label c : string) :
  has_column df c = true ->
  columns (with_month label (with_branch df)) !! c = columns df !! c.
Proof.
  intros Hc. unfold with_month, with_branch, set_scalar.
  destruct (has_column df col_branch) eqn:Hb.
  - destruct (has_column df col_month) eqn:Hm; [reflexivity|].
    apply set_column_lookup_ne. intros <-. congruence.
  - assert (Hne : col_branch <> c) by (intros <-; congruence).
    destruct (has_column (set_column df col_branch _) col_month) eqn:Hm.
    + apply set_column_lookup_ne, Hne.
    + rewrite has_column_set_ne in Hm by discriminate.
      rewrite !set_column_lookup_ne; [reflexivity | exact Hne | intros <-; congruence].
Qed.

Lemma with_defaults_well_formed (df : DataFrame) (label : string) :
  well_formed df -> well_formed (with_month label (with_branch df)).
Proof.
  intros Hwf c vs. unfold with_month, with_branch, set_scalar, set_column.
  repeat match goal with
         | |- context [if ?b then _ else _] => destruct b
         end; simpl; rewrite ?lookup_insert; repeat case_decide;
    intros Hl; try (injection Hl as <-; apply length_replicate); eauto.
Qed.

(** * Further properties of the pipeline *)

(** ** [clean_price] *)





(** X3. A cell that is already a number of magnitude below 2^53, int or
    float, is cleaned to the float of its absolute value: the digits are
    read back exactly and the minus sign is lost. *)
Theorem clean_price_numeric_cell (z : Z) :
  Z.abs z < 2 ^ 53 ->
  clean_price (Num (PyInt z)) = Return (PyFloat (FNum (Z.abs z))) /\
  clean_price (Num (PyFloat (FNum z))) = Return (PyFloat (FNum (Z.abs z))).
Proof.
  intros Hz. split; [apply clean_price_int_cell | apply clean_price_float_cell]; exact Hz.
Qed.

Lemma clean_price_numeric_cell_witness :
  clean_price (Num (PyInt (-5000))) = Return (PyFloat (FNum 5000)) /\
  clean_price (Num (PyFloat (FNum (-5000)))) = Return (PyFloat (FNum 5000)).
Proof. exact (clean_price_numeric_cell (-5000) eq_refl). Defined.

(** X4. A second pass of [clean_price] over one of its own results returns
    an equal number, as long as the result is not NaN and is below 10^16. *)
Theorem clean_price_second_pass (x : pyobj) (v : pynum) :
  clean_price x = Return v ->
  prints_plainly v = true ->
  returns_eq (clean_price (Num v)) v = true.
Proof.
  intros Hx Hplain.
  destruct v as [z | [z| | |]].
  - destruct (search_price (py_str x)) as [g|] eqn:Hs.
    + rewrite (clean_price_matched x g Hs) in Hx.
      destruct (is_empty (remove_commas g)); [|discriminate].
      injection Hx as <-. reflexivity.
    + destruct (clean_price_unmatched x _ Hs Hx) as [H| [H| [H| H]]];
        try discriminate. injection H as ->. reflexivity.
  - simpl in Hplain. apply Z.ltb_lt in Hplain.
    rewrite (clean_price_reapplied_below x z Hx Hplain). simpl.
    unfold num_eqb. simpl. apply Z.eqb_refl.
  - reflexivity.
  - reflexivity.
  - discriminate.
Qed.

Lemma clean_price_second_pass_witness :
  returns_eq (clean_price (Num (PyFloat (FNum 12345)))) (PyFloat (FNum 12345)) = true.
Proof.
  exact (clean_price_second_pass (Str "12,345") (PyFloat (FNum 12345)) eq_refl eq_refl).
Defined.

(** ** The category keys *)



(** X6. A label without opening parenthesis, or without closing
    parenthesis, belongs to the sentinel group. *)
Theorem extract_paren_without_group (s : string) :
  existsb_str is_paren_open s = false \/ existsb_str is_paren_close s = false ->
  extract_paren (Str s) = other.
Proof.
  intros [H | H]; unfold extract_paren; simpl py_str.
  - rewrite (search_paren_unopened s H). reflexivity.
  - rewrite (search_paren_unclosed s H). reflexivity.
Qed.

Lemma extract_paren_without_group_witness :
  extract_paren (Str "Snacks (Imported") = other.
Proof. exact (extract_paren_without_group "Snacks (Imported" (or_intror eq_refl)). Defined.



(** X8. The prefix key is the sentinel for a blank label, for a label that
    starts with the parenthesis, and for a missing label. *)
Theorem extract_prefix_sentinel (b r : string) :
  forallb_str is_space b = true ->
  extract_prefix (Str b) = other /\
  extract_prefix (Str (String "(" r)) = other /\
  extract_prefix (Num (PyFloat FNaN)) = other.
Proof.
  intros Hb. split; [apply extract_prefix_blank, Hb|].
  split; [apply extract_prefix_paren_first | reflexivity].
Qed.

Lemma extract_prefix_sentinel_witness :
  extract_prefix (Str "   ") = other /\
  extract_prefix (Str "(Imported) Snacks") = other /\
  extract_prefix (Num (PyFloat FNaN)) = other.
Proof. exact (extract_prefix_sentinel "   " "Imported) Snacks" eq_refl). Defined.

(** X9. Both keys are trimmed, the prefix key holds no opening parenthesis
    and the group key no closing parenthesis, for every cell. *)
Theorem category_keys_trimmed (x : pyobj) :
  strip (extract_prefix x) = extract_prefix x /\
  existsb_str is_paren_open (extract_prefix x) = false /\
  strip (extract_paren x) = extract_paren x /\
  existsb_str is_paren_close (extract_paren x) = false.
Proof.
  destruct (extract_prefix_trimmed x) as [H1 H2].
  destruct (extract_paren_trimmed x) as [H3 H4]. auto.
Qed.

(** ** The loader *)

Lemma sample_table_well_formed : well_formed sample_table.
Proof.
  intros c vs. unfold sample_table. cbn [columns list_to_map foldr uncurry].
  rewrite !lookup_insert.
  repeat case_decide;
    first [intros [= <-]; reflexivity | rewrite lookup_empty; discriminate].
Qed.

(** X10. A successful load keeps the number of rows, replaces the amount
    column by the cleaned amounts, adds the group column computed from the
    label column, and leaves every other column of the decoded table as it
    was, a branch or month column that was present included. *)
Theorem load_columns (df df' : DataFrame) (label : string) :
  load_and_preprocess_from_path (Some df) label = Some df' ->
  nrows df' = nrows df /\
  (exists amounts,
      columns df !! col_amount = Some amounts /\
      columns df' !! col_amount = Some (map (fun x => Num (clean_value x)) amounts)) /\
  (exists names,
      columns df !! col_category = Some names /\
      columns df' !! col_category = Some names /\
      columns df' !! col_group = Some (map (fun x => Str (extract_paren x)) names)) /\
  (forall c, c <> col_amount -> c <> col_group -> has_column df c = true ->
             columns df' !! c = columns df !! c).
Proof.
  intros Hload.
  destruct (load_loaded df df' label Hload) as (amounts & names & Ha & Hn & ->).
  unfold loaded_table. split; [apply with_defaults_nrows|].
  split; [|split].
  - exists amounts. split; [exact Ha|].
    rewrite set_column_lookup_ne by discriminate. apply set_column_lookup_eq.
  - exists names. split; [exact Hn|]. split; [|apply set_column_lookup_eq].
    rewrite !set_column_lookup_ne by discriminate.
    rewrite with_defaults_lookup_other by discriminate. exact Hn.
  - intros c Hca Hcg Hc.
    rewrite !set_column_lookup_ne by congruence.
    apply with_defaults_present, Hc.
Qed.

Lemma load_columns_witness :
  let df' := loaded_table sample_table "당월"
               [Str "(12,345)"; Str "N/A"] [Str "Tea (g0)"; Str "Gift"] in
  nrows df' = nrows sample_table /\
  (exists amounts,
      columns sample_table !! col_amount = Some amounts /\
      columns df' !! col_amount = Some (map (fun x => Num (clean_value x)) amounts)) /\
  (exists names,
      columns sample_table !! col_category = Some names /\
      columns df' !! col_category = Some names /\
      columns df' !! col_group = Some (map (fun x => Str (extract_paren x)) names)) /\
  (forall c, c <> col_amount -> c <> col_group -> has_column sample_table c = true ->
             columns df' !! c = columns sample_table !! c).
Proof.
  exact (load_columns sample_table
           (loaded_table sample_table "당월"
              [Str "(12,345)"; Str "N/A"] [Str "Tea (g0)"; Str "Gift"])
           "당월" eq_refl).
Defined.

(** X11. Loading keeps the table well formed: when every column of the
    decoded table has one value per row, so has every column of the loaded
    table, the filled and the derived ones included. *)
Theorem load_well_formed (df df' : DataFrame) (label : string) :
  well_formed df ->
  load_and_preprocess_from_path (Some df) label = Some df' ->
  well_formed df'.
Proof.
  intros Hwf Hload.
  destruct (load_loaded df df' label Hload) as (amounts & names & Ha & Hn & ->).
  pose proof (with_defaults_well_formed df label Hwf) as Hwf1.
  pose proof (with_defaults_nrows df label) as Hrows.
  intros c vs. unfold loaded_table, set_column. simpl.
  rewrite !lookup_insert. repeat case_decide.
  - intros [= <-]. rewrite length_map, Hrows. apply (Hwf _ _ Hn).
  - intros [= <-]. rewrite length_map, Hrows. apply (Hwf _ _ Ha).
  - intros Hc. rewrite Hrows. rewrite <- Hrows. apply (Hwf1 _ _ Hc).
Qed.

Lemma load_well_formed_witness :
  well_formed (loaded_table sample_table "당월"
                 [Str "(12,345)"; Str "N/A"] [Str "Tea (g0)"; Str "Gift"]).
Proof.
  exact (load_well_formed sample_table _ "당월" sample_table_well_formed eq_refl).
Defined.

(** ** The aggregator *)


(** X13. The index of a grouped sum is sorted in strictly increasing key
    order, so no key comes twice, and its keys are exactly the keys of the
    rows. *)
Theorem groupby_sum_index (key : Sale -> string) (val : Sale -> Z) (df : list Sale) :
  StronglySorted key_lt (keys (groupby_sum key val df)) /\
  NoDup (keys (groupby_sum key val df)) /\
  (forall k, In k (keys (groupby_sum key val df)) <-> exists r, In r df /\ key r = k).
Proof.
  split; [apply groupby_sum_sorted|].
  split; [apply sorted_NoDup, groupby_sum_sorted|].
  intros k. apply groupby_sum_keys.
Qed.



(** ** The comparator *)

(** X15. In every row of the comparison table the current and the previous
    value are the sums of the measure over the rows of the key in the
    current and in the previous period: restricting to the selected keys
    loses nothing of a selected key, and a period without the key gives
    0. *)
Theorem compare_values (key : Sale -> string) (val : Sale -> Z) (df_prev df_curr : list Sale) :
  Forall (fun row =>
            current_value row = column_sum val (rows_with key (row_key row) df_curr) /\
            previous_value row = column_sum val (rows_with key (row_key row) df_prev))
         (compare key val df_prev df_curr).
Proof.
  apply List.Forall_forall. intros row Hrow. apply compare_row_values, Hrow.
Qed.

(** X16. The comparison table has at most ten rows, its keys are in
    strictly increasing order without repetition, and each is a key of one
    of the two periods. *)
Theorem compare_index (key : Sale -> string) (val : Sale -> Z) (df_prev df_curr : list Sale) :
  (length (compare key val df_prev df_curr) <= 10)%nat /\
  StronglySorted key_lt (map row_key (compare key val df_prev df_curr)) /\
  Forall (fun k => (exists r, In r df_prev /\ key r = k) \/
                   (exists r, In r df_curr /\ key r = k))
         (map row_key (compare key val df_prev df_curr)).
Proof.
  pose proof (compare_row_keys key val df_prev df_curr) as Hs.
  split; [|split; [exact Hs|]].
  - rewrite <- (length_map row_key).
    etransitivity; [|apply (top10_groups_length key val df_prev df_curr)].
    apply NoDup_incl_length.
    + apply NoDup_ListNoDup, sorted_NoDup, Hs.
    + intros k Hk. apply compare_keys, Hk.
  - apply List.Forall_forall. intros k Hk.
    apply compare_keys in Hk. apply top10_groups_In in Hk. exact Hk.
Qed.



(** X18. When the two periods have at most ten distinct keys together, the
    comparison table has a row for every key of either period. *)
Theorem compare_shows_all_when_few (key : Sale -> string) (val : Sale -> Z)
        (df_prev df_curr : list Sale) (k : string) :
  (length (index_union (keys (groupby_sum key val df_prev))
                       (keys (groupby_sum key val df_curr))) <= 10)%nat ->
  In k (map row_key (compare key val df_prev df_curr)) <->
  (exists r, In r df_prev /\ key r = k) \/ (exists r, In r df_curr /\ key r = k).
Proof.
  intros Hlen. rewrite compare_keys. apply top10_groups_few, Hlen.
Qed.

Lemma compare_shows_all_when_few_witness :
  In "B"%string (map row_key (compare category_group sale_amount sample_prev sample_curr)) <->
  (exists r, In r sample_prev /\ category_group r = "B"%string) \/
  (exists r, In r sample_curr /\ category_group r = "B"%string).
Proof.
  apply (compare_shows_all_when_few category_group sale_amount sample_prev sample_curr "B").
  vm_compute. lia.
Defined.

(** X19. Exchanging the two periods exchanges the two value columns of the
    comparison table and keeps its keys; the differences change sign. *)
Theorem compare_swap_periods (key : Sale -> string) (val : Sale -> Z)
        (df_prev df_curr : list Sale) :
  compare key val df_curr df_prev = map swap_row (compare key val df_prev df_curr) /\
  map delta (compare_report key val df_curr df_prev)
  = map (fun r => - delta r) (compare_report key val df_prev df_curr).
Proof.
  split; [apply compare_swap|].
  unfold compare_report. rewrite compare_swap, !map_map.
  apply map_ext. intros r. simpl. lia.
Qed.

(** ** Rankings *)








(** ** Report figures *)





